(** * smart-whiteboard-app: the backend services, embedded and verified

    The development follows the layout of [backend/app]:
    - [Py]            the Python values and exceptions the services use;
    - [Drawing]       [app/models/drawing.py], the pydantic models;
    - [Config]        [app/core/config.py], the canvas settings;
    - [CanvasService] [app/services/canvas_service.py], rooms, canvases and
                      analytics held in three dictionaries;
    - [AIService]     [app/services/ai_service.py], shape classification and
                      OCR filtering over an OpenCV / Tesseract interface;
    - [Routes]        [app/api/routes.py], the two AI endpoints.

    Python [float] is IEEE binary64 and is modelled by the kernel's primitive
    floats, Python [int] by [Z], [str] by [string], and a [dict] with string
    keys by a [gmap string _]. *)

From Stdlib Require Import ZArith Ascii Floats.PrimFloat Numbers.Cyclic.Int63.Uint63.
From Stdlib Require Floats.SpecFloat Floats.FloatAxioms.
From stdpp Require Import gmap strings list fin_maps.

#[local] Set Warnings "-inexact-float,-register-all".
#[local] Open Scope Z_scope.

(** ** Python values and exceptions *)
Module Py.

(** The exceptions the services may meet: [Exception(msg)], which the
    services raise themselves; [ZeroDivisionError] and [IndexError], which
    division and list indexing raise; and [OtherError cls msg] for what the
    imaging libraries raise. [str e] is Python's [str(e)]. *)
Inductive exn : Type :=
| Exception (msg : string)
| ZeroDivisionError (msg : string)
| IndexError (msg : string)
| OtherError (cls msg : string).

Definition str (e : exn) : string :=
  match e with
  | Exception msg => msg
  | ZeroDivisionError msg => msg
  | IndexError msg => msg
  | OtherError _ msg => msg
  end.

(** The outcome of a call: a returned value or a raised exception. *)
Inductive outcome (A : Type) : Type :=
| Return (a : A)
| Raise (e : exn).
Arguments Return {A} a.
Arguments Raise {A} e.

#[global] Instance outcome_ret : MRet outcome := fun A a => Return a.

#[global] Instance outcome_bind : MBind outcome := fun A B k m =>
  match m with
  | Return a => k a
  | Raise e => Raise e
  end.

(** [try: ... except Exception as e: raise Exception(f(str(e)))]. *)
Definition reraise_as {A : Type} (f : string → string) (m : outcome A) : outcome A :=
  match m with
  | Return a => Return a
  | Raise e => Raise (Exception (f (str e)))
  end.

(** [float(n)] for an [int] (exact below 2^53 in magnitude, rounded to
    nearest up to 2^63, which covers every count and pixel size here). *)
Definition float_of_Z (n : Z) : float :=
  match n with
  | Z0 => 0%float
  | Zpos _ => PrimFloat.of_uint63 (Uint63.of_Z n)
  | Zneg _ => PrimFloat.opp (PrimFloat.of_uint63 (Uint63.of_Z (- n)))
  end.

(** [a / n] for a float [a] and an int [n]: [n] is converted to a float,
    and a zero divisor raises. *)
Definition truediv_float_int (a : float) (n : Z) : outcome float :=
  if n =? 0
  then Raise (ZeroDivisionError "float division by zero")
  else Return (PrimFloat.div a (float_of_Z n)).

(** [a / b] on floats: a zero divisor (of either sign) raises, where IEEE
    would give an infinity or a NaN. *)
Definition truediv (a b : float) : outcome float :=
  if PrimFloat.eqb b 0%float
  then Raise (ZeroDivisionError "float division by zero")
  else Return (PrimFloat.div a b).

(** [m / n] on ints: the correctly rounded quotient, which is the quotient
    of the two conversions as long as both are below 2^53 in magnitude. *)
Definition truediv_int (m n : Z) : outcome float :=
  if n =? 0
  then Raise (ZeroDivisionError "division by zero")
  else Return (PrimFloat.div (float_of_Z m) (float_of_Z n)).

(** [xs[i]] *)
Definition index {A : Type} (xs : list A) (i : nat) : outcome A :=
  match xs !! i with
  | Some a => Return a
  | None => Raise (IndexError "list index out of range")
  end.

(** The white space of [str.strip()], for code points below 256. *)
Definition isspace (c : Ascii.ascii) : bool :=
  let n := Ascii.nat_of_ascii c in
  ((9 <=? n) && (n <=? 13) || (28 <=? n) && (n <=? 32)
   || (n =? 133) || (n =? 160))%nat.

Fixpoint lstrip (s : string) : string :=
  match s with
  | String c s' => if isspace c then lstrip s' else s
  | EmptyString => EmptyString
  end.

Fixpoint rstrip (s : string) : string :=
  match s with
  | String c s' =>
      match rstrip s' with
      | EmptyString => if isspace c then EmptyString else String c EmptyString
      | t => String c t
      end
  | EmptyString => EmptyString
  end.

Definition strip (s : string) : string := rstrip (lstrip s).

(** [s.split(',')[1] if ',' in s else s]: what stands between the first
    comma and the next one (or the end). *)
Fixpoint upto_comma (s : string) : string :=
  match s with
  | String c s' => if Ascii.eqb c ","%char then EmptyString else String c (upto_comma s')
  | EmptyString => EmptyString
  end.

Fixpoint after_comma (s : string) : option string :=
  match s with
  | String c s' => if Ascii.eqb c ","%char then Some s' else after_comma s'
  | EmptyString => None
  end.

Definition second_field_or_all (s : string) : string :=
  match after_comma s with
  | Some rest => upto_comma rest
  | None => s
  end.

(** [sum(xs)] over floats, from the start value [0], left to right (the
    plain additions of CPython up to 3.11; later versions carry a
    compensation term that can differ in the last bit of long sums). *)
Definition sum (xs : list float) : float :=
  fold_left PrimFloat.add xs 0%float.

(** [len(xs)] as a Python [int]. *)
Definition len {A : Type} (xs : list A) : Z := Z.of_nat (length xs).

End Py.

Import Py.

(** ** [app/models/drawing.py] *)
Module Drawing.

Inductive ToolType : Type := PEN | ERASER | SHAPE | TEXT.

Inductive ShapeType : Type := RECTANGLE | CIRCLE | TRIANGLE | LINE | ARROW.

(** [ShapeType] is a [str] enumeration: [.value] is the member's string. *)
Definition value (t : ShapeType) : string :=
  match t with
  | RECTANGLE => "rectangle"
  | CIRCLE => "circle"
  | TRIANGLE => "triangle"
  | LINE => "line"
  | ARROW => "arrow"
  end.

Record DrawingPoint : Type := {
  x : float;
  y : float;
  pressure : option float;
}.

Record DrawingStroke : Type := {
  points : list DrawingPoint;
  color : string;
  width : float;
  tool : ToolType;
  shape_type : option ShapeType;
}.

Record DrawingData : Type := {
  strokes : list DrawingStroke;
  canvas_width : Z;
  canvas_height : Z;
  background_color : string;
  timestamp : option string;
}.

(** [DrawingData(canvas_width=w, canvas_height=h)]: the other fields take
    their declared defaults. *)
Definition DrawingData_sized (w h : Z) : DrawingData :=
  {| strokes := []; canvas_width := w; canvas_height := h;
     background_color := "#ffffff"; timestamp := None |}.

Record ShapeDetectionRequest : Type := {
  sd_image_data : string;
  sd_confidence_threshold : float;
  sd_max_shapes : Z;
}.

Record OCRRequest : Type := {
  ocr_image_data : string;
  ocr_language : string;
  ocr_confidence_threshold : float;
}.

(** One entry of [ShapeDetectionResult.shapes]: the dictionary
    [{'type', 'confidence', 'vertices', 'area'}]. *)
Record ShapeInfo : Type := {
  type : string;
  confidence : float;
  vertices : Z;
  area : float;
}.

Record ShapeDetectionResult : Type := {
  shapes : list ShapeInfo;
  sdr_confidence : float;
  sdr_processing_time : float;
}.

(** One entry of [OCRResult.bounding_boxes]: the dictionary
    [{'text', 'confidence', 'bbox': {'x', 'y', 'width', 'height'}}]. *)
Record BBox : Type := {
  bbox_x : Z;
  bbox_y : Z;
  bbox_width : Z;
  bbox_height : Z;
}.

Record BoundingBox : Type := {
  bb_text : string;
  bb_confidence : Z;
  bbox : BBox;
}.

Record OCRResult : Type := {
  text : string;
  ocr_confidence : float;
  bounding_boxes : list BoundingBox;
  ocr_processing_time : float;
}.

(** [heatmap_data], the dictionary [{'width', 'height', 'data'}]. *)
Record Heatmap : Type := {
  hm_width : Z;
  hm_height : Z;
  hm_data : list (list Z);
}.

Record CanvasAnalytics : Type := {
  total_strokes : Z;
  active_users : Z;
  drawing_time : float;
  heatmap_data : Heatmap;
  shape_count : gmap string Z;
  color_usage : gmap string Z;
}.

End Drawing.

Import Drawing.

(** ** [app/core/config.py] *)
Module Config.

(** The settings the canvas service reads. They are fields of a
    [BaseSettings] object, so the environment may override the defaults. *)
Record Settings : Type := {
  DEFAULT_CANVAS_WIDTH : Z;
  DEFAULT_CANVAS_HEIGHT : Z;
  MAX_CANVAS_SIZE : Z;
}.

Definition default_settings : Settings :=
  {| DEFAULT_CANVAS_WIDTH := 1920;
     DEFAULT_CANVAS_HEIGHT := 1080;
     MAX_CANVAS_SIZE := 4096 |}.

End Config.

Import Config.

(** ** [app/services/canvas_service.py] *)

(** A value of [CanvasService.rooms]: the dictionary [create_room] builds. *)
Module Room.

Record t : Type := {
  id : string;
  name : string;
  created_at : string;
  active_users : Z;
  canvas_width : Z;
  canvas_height : Z;
}.

(** [room['active_users'] = n] *)
Definition set_active_users (n : Z) (r : t) : t :=
  {| id := id r; name := name r; created_at := created_at r;
     active_users := n;
     canvas_width := canvas_width r; canvas_height := canvas_height r |}.

End Room.

Module CanvasService.

(** The service object: its three dictionaries, keyed by room id. *)
Record t : Type := {
  rooms : gmap string Room.t;
  canvas_data : gmap string DrawingData;
  analytics : gmap string CanvasAnalytics;
}.

Definition set_rooms (m : gmap string Room.t) (self : t) : t :=
  {| rooms := m; canvas_data := canvas_data self; analytics := analytics self |}.

Definition set_canvas_data (m : gmap string DrawingData) (self : t) : t :=
  {| rooms := rooms self; canvas_data := m; analytics := analytics self |}.

Definition set_analytics (m : gmap string CanvasAnalytics) (self : t) : t :=
  {| rooms := rooms self; canvas_data := canvas_data self; analytics := m |}.

(** [__init__] *)
Definition init : t :=
  {| rooms := ∅; canvas_data := ∅; analytics := ∅ |}.

Section WithSettings.

Variable settings : Settings.

(** [create_room]. [uuid4] is the string of the identifier [uuid.uuid4()]
    draws and [now] the text of [datetime.now().isoformat()]: the two
    readings of the outside world are arguments. Returns the room id. *)
Definition create_room (self : t) (room_name : string) (uuid4 now : string)
  : string * t :=
  let room_id := uuid4 in
  let self :=
    set_rooms
      (<[room_id := {| Room.id := room_id;
                       Room.name := room_name;
                       Room.created_at := now;
                       Room.active_users := 0;
                       Room.canvas_width := DEFAULT_CANVAS_WIDTH settings;
                       Room.canvas_height := DEFAULT_CANVAS_HEIGHT settings |}]>
         (rooms self)) self in
  (* Initialize empty canvas *)
  let self :=
    set_canvas_data
      (<[room_id := DrawingData_sized (DEFAULT_CANVAS_WIDTH settings)
                                      (DEFAULT_CANVAS_HEIGHT settings)]>
         (canvas_data self)) self in
  (room_id, self).

(** [get_room_info] *)
Definition get_room_info (self : t) (room_id : string) : outcome Room.t :=
  match rooms self !! room_id with
  | None => Raise (Exception "Room not found")
  | Some room => Return room
  end.

(** [get_canvas] *)
Definition get_canvas (self : t) (room_id : string) : outcome DrawingData :=
  match canvas_data self !! room_id with
  | None => Raise (Exception "Canvas not found")
  | Some d => Return d
  end.

(** The record [get_room_analytics] returns when none is stored. *)
Definition mock_analytics : CanvasAnalytics :=
  {| total_strokes := 0;
     active_users := 0;
     drawing_time := 0.0%float;
     heatmap_data := {| hm_width := 1920; hm_height := 1080; hm_data := [] |};
     shape_count := ∅;
     color_usage := ∅ |}.

(** [get_room_analytics] *)
Definition get_room_analytics (self : t) (room_id : string) : CanvasAnalytics :=
  match analytics self !! room_id with
  | None => mock_analytics
  | Some a => a
  end.

(** The record [_update_room_analytics] stores first when the room has
    none. *)
Definition initial_analytics : CanvasAnalytics :=
  {| total_strokes := 0;
     active_users := 1;
     drawing_time := 0.0%float;
     heatmap_data := {| hm_width := 1920; hm_height := 1080; hm_data := [] |};
     shape_count := ∅;
     color_usage := ∅ |}.

(** [d[k] = d.get(k, 0) + 1] *)
Definition bump (k : string) (d : gmap string Z) : gmap string Z :=
  <[k := default 0 (d !! k) + 1]> d.

(** The colour loop: one [bump] per stroke, in order, from [{}]. *)
Definition count_colors (ss : list DrawingStroke) : gmap string Z :=
  fold_left (fun color_usage stroke => bump (color stroke) color_usage) ss ∅.

(** [if stroke.shape_type:]: [None] is false, and a member of the [str]
    enumeration is true exactly when its string is not empty. *)
Definition truthy (o : option ShapeType) : bool :=
  match o with
  | None => false
  | Some st => bool_decide (value st ≠ "")
  end.

(** The shape loop: strokes whose [shape_type] is falsy are skipped. *)
Definition count_shapes (ss : list DrawingStroke) : gmap string Z :=
  fold_left
    (fun shape_count stroke =>
       if truthy (shape_type stroke) then
         match shape_type stroke with
         | Some st => bump (value st) shape_count
         | None => shape_count (* unreachable: [None] is falsy *)
         end
       else shape_count) ss ∅.

(** The four assignments [_update_room_analytics] makes to the room's
    analytics object; [active_users] and [heatmap_data] are not assigned. *)
Definition recompute (a : CanvasAnalytics) (drawing_data : DrawingData)
  : CanvasAnalytics :=
  {| total_strokes := len (strokes drawing_data);
     active_users := active_users a;
     drawing_time :=
       PrimFloat.mul (float_of_Z (len (strokes drawing_data))) 0.1%float;
     heatmap_data := heatmap_data a;
     shape_count := count_shapes (strokes drawing_data);
     color_usage := count_colors (strokes drawing_data) |}.

(** [_update_room_analytics] *)
Definition _update_room_analytics (self : t) (room_id : string)
    (drawing_data : DrawingData) : t :=
  let self :=
    match analytics self !! room_id with
    | None => set_analytics (<[room_id := initial_analytics]> (analytics self)) self
    | Some _ => self
    end in
  match analytics self !! room_id with
  | None => self (* unreachable: the key was just ensured *)
  | Some a =>
      set_analytics (<[room_id := recompute a drawing_data]> (analytics self)) self
  end.

(** [save_canvas] *)
Definition save_canvas (self : t) (room_id : string) (drawing_data : DrawingData)
  : outcome unit * t :=
  match rooms self !! room_id with
  | None => (Raise (Exception "Room not found"), self)
  | Some _ =>
      let self :=
        set_canvas_data (<[room_id := drawing_data]> (canvas_data self)) self in
      (* Update room analytics *)
      (Return tt, _update_room_analytics self room_id drawing_data)
  end.

(** [join_room] *)
Definition join_room (self : t) (room_id user_id : string) : outcome unit * t :=
  match rooms self !! room_id with
  | None => (Raise (Exception "Room not found"), self)
  | Some room =>
      (Return tt,
       set_rooms
         (<[room_id := Room.set_active_users (Room.active_users room + 1) room]>
            (rooms self)) self)
  end.

(** [leave_room] *)
Definition leave_room (self : t) (room_id user_id : string) : outcome unit * t :=
  match rooms self !! room_id with
  | Some room =>
      (Return tt,
       set_rooms
         (<[room_id :=
              Room.set_active_users (Z.max 0 (Room.active_users room - 1)) room]>
            (rooms self)) self)
  | None => (Return tt, self)
  end.

(** [delete_room]: three guarded [del]s. *)
Definition delete_room (self : t) (room_id : string) : outcome unit * t :=
  let self :=
    if decide (is_Some (rooms self !! room_id))
    then set_rooms (delete room_id (rooms self)) self else self in
  let self :=
    if decide (is_Some (canvas_data self !! room_id))
    then set_canvas_data (delete room_id (canvas_data self)) self else self in
  let self :=
    if decide (is_Some (analytics self !! room_id))
    then set_analytics (delete room_id (analytics self)) self else self in
  (Return tt, self).

(** *** Histories of calls

    The calls that change the service, and the states a sequence of them
    reaches from [init]. The identifier [create_room] draws is a fresh
    version-4 UUID: the step takes it to name no room of the registry. *)
Inductive call : Type :=
| CreateRoom (room_name uuid4 now : string)
| SaveCanvas (room_id : string) (drawing_data : DrawingData)
| JoinRoom (room_id user_id : string)
| LeaveRoom (room_id user_id : string)
| DeleteRoom (room_id : string).

Definition run (self : t) (c : call) : t :=
  match c with
  | CreateRoom room_name uuid4 now => snd (create_room self room_name uuid4 now)
  | SaveCanvas room_id drawing_data => snd (save_canvas self room_id drawing_data)
  | JoinRoom room_id user_id => snd (join_room self room_id user_id)
  | LeaveRoom room_id user_id => snd (leave_room self room_id user_id)
  | DeleteRoom room_id => snd (delete_room self room_id)
  end.

Definition admissible (self : t) (c : call) : Prop :=
  match c with
  | CreateRoom _ uuid4 _ => rooms self !! uuid4 = None
  | _ => True
  end.

Inductive reachable : t → Prop :=
| reachable_init : reachable init
| reachable_run self c :
    reachable self → admissible self c → reachable (run self c).

End WithSettings.

(** *** [upload_image] *)

(** The [UploadFile] handed to an upload: the client's file name and
    content type, either of which may be missing, and what awaiting
    [file.read()] gives. *)
Record UploadFile : Type := {
  filename : option string;
  content_type : option string;
  read : outcome (list Byte.byte);
}.

(** The operating system under [upload_image]: a disk, and on it
    [os.makedirs(path, exist_ok=True)], opening a file with mode ['wb'] and
    writing to the opened file, each of which may raise; and the pure
    [os.path.splitext] and [os.path.join]. *)
Class Files : Type := {
  disk : Type;
  makedirs : string → disk → outcome unit * disk;
  splitext : string → string * string;
  path_join : string → string → string;
  open_wb : string → disk → outcome unit * disk;
  write : string → list Byte.byte → disk → outcome unit * disk;
}.

Section Upload.

Context `{Files}.

(** [settings.UPLOAD_DIR] *)
Variable UPLOAD_DIR : string.

(** One step on the disk, then the next unless the step raised. *)
Definition and_then {A B : Type} (m : disk → outcome A * disk)
    (k : A → disk → outcome B * disk) : disk → outcome B * disk :=
  fun d =>
    match m d with
    | (Return a, d) => k a d
    | (Raise e, d) => (Raise e, d)
    end.

(** [upload_image]. [uuid4] is the string of the identifier drawn for the
    file name. Returns the URL of the stored file. *)
Definition upload_image (file : UploadFile) (uuid4 : string) (d : disk)
  : outcome string * disk :=
  let body :=
    (* Create upload directory if it doesn't exist *)
    and_then (makedirs UPLOAD_DIR) (fun _ =>
    (* Generate unique filename *)
    let file_extension := snd (splitext (default "" (filename file))) in
    let filename := String.append uuid4 file_extension in
    let file_path := path_join UPLOAD_DIR filename in
    (* Save file *)
    and_then (open_wb file_path) (fun _ =>
    and_then (fun d => (read file, d)) (fun content =>
    and_then (write file_path content) (fun _ d =>
    (* Return file URL *)
    (Return (String.append "/uploads/" filename), d))))) in
  let '(r, d) := body d in
  (reraise_as (String.append "Failed to upload image: ") r, d).

End Upload.

End CanvasService.

(** ** [app/services/ai_service.py] *)
Module AIService.

(** A contour as OpenCV hands it over: the sequence of its integer points;
    [len(contour)] is the number of points. *)
Definition contour : Type := list (Z * Z).

(** One table of [pytesseract.image_to_data(..., output_type=Output.DICT)]:
    a dictionary of parallel columns, the numeric ones holding ints. *)
Record TessData : Type := {
  conf : list Z;
  data_text : list string;
  left : list Z;
  top : list Z;
  data_width : list Z;
  data_height : list Z;
}.

(** The imaging libraries the service calls (base64, PIL, NumPy, OpenCV and
    Tesseract); they are no code of the repository and enter as an interface.
    - [find_contours payload]: [b64decode], [Image.open], [np.array],
      [cvtColor(RGB2GRAY)], [threshold(127, 255, THRESH_BINARY)] and
      [findContours(RETR_EXTERNAL, CHAIN_APPROX_SIMPLE)], or what they raise;
    - [tesseract payload lang]: the same decoding with [THRESH_BINARY_INV],
      then [image_to_string] and [image_to_data], or what they raise;
    - the others are the functions of [cv2] of the same names. *)
Class Imaging : Type := {
  find_contours : string → outcome (list contour);
  arcLength : contour → bool → float;
  approxPolyDP : contour → float → bool → contour;
  contourArea : contour → float;
  boundingRect : contour → Z * Z * Z * Z;
  tesseract : string → string → outcome (string * TessData);
}.

(** [np.pi] *)
Definition pi : float := 3.141592653589793%float.

Section WithImaging.

Context `{Imaging}.

(** The expression
    [4 * np.pi * area / (perimeter * perimeter) if perimeter > 0 else 0]. *)
Definition circularity_of (area perimeter : float) : outcome float :=
  if PrimFloat.ltb 0 perimeter
  then truediv (PrimFloat.mul (PrimFloat.mul 4 pi) area)
               (PrimFloat.mul perimeter perimeter)
  else Return 0%float.

(** The last [return] of [_classify_shape]. *)
Definition unknown_shape (contour : contour) : ShapeInfo :=
  {| type := "unknown"; confidence := 0.5;
     vertices := len contour; area := contourArea contour |}.

(** [_classify_shape] *)
Definition _classify_shape (contour : contour) : outcome ShapeInfo :=
  let vertices := len contour in
  if vertices =? 3 then
    Return {| type := "triangle"; confidence := 0.9;
              vertices := vertices; area := contourArea contour |}
  else if vertices =? 4 then
    (* Check if it's a rectangle *)
    let '(x, y, w, h) := boundingRect contour in
    aspect_ratio ← truediv_float_int (float_of_Z w) h;
    if PrimFloat.leb 0.8 aspect_ratio && PrimFloat.leb aspect_ratio 1.2 then
      Return {| type := "square"; confidence := 0.85;
                vertices := vertices; area := contourArea contour |}
    else
      Return {| type := "rectangle"; confidence := 0.8;
                vertices := vertices; area := contourArea contour |}
  else if vertices >? 8 then
    (* Check if it's a circle *)
    let area := contourArea contour in
    let perimeter := arcLength contour true in
    circularity ← circularity_of area perimeter;
    if PrimFloat.ltb 0.8 circularity then
      Return {| type := "circle"; confidence := circularity;
                vertices := vertices; area := area |}
    else Return (unknown_shape contour)
  else Return (unknown_shape contour).

(** The loop of [detect_shapes] over the contours still to visit, [shapes]
    being the list built so far. *)
Fixpoint collect_shapes (confidence_threshold : float)
    (contours : list contour) (shapes : list ShapeInfo)
  : outcome (list ShapeInfo) :=
  match contours with
  | [] => Return shapes
  | contour :: contours =>
      (* Approximate contour to polygon *)
      let epsilon := PrimFloat.mul 0.02 (arcLength contour true) in
      let approx := approxPolyDP contour epsilon true in
      (* Determine shape type *)
      shape_info ← _classify_shape approx;
      if PrimFloat.leb confidence_threshold (confidence shape_info)
      then collect_shapes confidence_threshold contours (shapes ++ [shape_info])
      else collect_shapes confidence_threshold contours shapes
  end.

(** [sum(s['confidence'] for s in shapes) / len(shapes) if shapes else 0] *)
Definition mean_confidence (shapes : list ShapeInfo) : outcome float :=
  match shapes with
  | [] => Return 0%float
  | _ => truediv_float_int (sum (confidence <$> shapes)) (len shapes)
  end.

(** [detect_shapes]. [start_time] and [end_time] are the two readings of
    [time.time()]. *)
Definition detect_shapes (image_data : string) (confidence_threshold : float)
    (start_time end_time : float) : outcome ShapeDetectionResult :=
  reraise_as (String.append "Shape detection failed: ")
    (contours ← find_contours (second_field_or_all image_data);
     shapes ← collect_shapes confidence_threshold contours [];
     let processing_time := PrimFloat.sub end_time start_time in
     confidence ← mean_confidence shapes;
     Return {| shapes := shapes;
               sdr_confidence := confidence;
               sdr_processing_time := processing_time |}).

(** The default of the parameter [confidence_threshold]. *)
Definition default_confidence_threshold : float := 0.7.

(** The dictionary appended for the row [i] of the table. *)
Definition box_at (data : TessData) (i : nat) (conf : Z) : outcome BoundingBox :=
  text ← index (data_text data) i;
  x ← index (left data) i;
  y ← index (top data) i;
  width ← index (data_width data) i;
  height ← index (data_height data) i;
  Return {| bb_text := text;
            bb_confidence := conf;
            bbox := {| bbox_x := x; bbox_y := y;
                       bbox_width := width; bbox_height := height |} |}.

(** The loop of [perform_ocr] over [enumerate(data['conf'])]: [i] is the
    index of the head of [confs]. *)
Fixpoint collect_boxes (data : TessData) (i : nat) (confs : list Z)
    (bounding_boxes : list BoundingBox) : outcome (list BoundingBox) :=
  match confs with
  | [] => Return bounding_boxes
  | conf :: confs =>
      if conf >? 60 then (* Confidence threshold *)
        box ← box_at data i conf;
        collect_boxes data (S i) confs (bounding_boxes ++ [box])
      else collect_boxes data (S i) confs bounding_boxes
  end.

(** [sum(bb['confidence'] for bb in bounding_boxes) / len(bounding_boxes)
     if bounding_boxes else 0] *)
Definition mean_box_confidence (bounding_boxes : list BoundingBox) : outcome float :=
  match bounding_boxes with
  | [] => Return 0%float
  | _ => truediv_int (foldr Z.add 0 (bb_confidence <$> bounding_boxes))
                     (len bounding_boxes)
  end.

(** [perform_ocr] *)
Definition perform_ocr (image_data : string) (language : string)
    (start_time end_time : float) : outcome OCRResult :=
  reraise_as (String.append "OCR failed: ")
    ('(text, data) ← tesseract (second_field_or_all image_data) language;
     bounding_boxes ← collect_boxes data 0 (conf data) [];
     let processing_time := PrimFloat.sub end_time start_time in
     confidence ← mean_box_confidence bounding_boxes;
     Return {| text := strip text;
               ocr_confidence := confidence;
               bounding_boxes := bounding_boxes;
               ocr_processing_time := processing_time |}).

(** The default of the parameter [language]. *)
Definition default_language : string := "eng".

End WithImaging.

(** The inner loop of [_generate_mock_heatmap]: [n] more cells appended to
    [row]. [randint k] is what the [k]-th call of [random.randint(0, 100)]
    returns. *)
Fixpoint append_cells (randint : nat → Z) (k n : nat) (row : list Z) : list Z :=
  match n with
  | O => row
  | S n => append_cells randint (S k) n (row ++ [randint k])
  end.

(** The outer loop: [m] more rows of 192 cells appended to [heatmap]. *)
Fixpoint append_rows (randint : nat → Z) (k m : nat) (heatmap : list (list Z))
  : list (list Z) :=
  match m with
  | O => heatmap
  | S m =>
      append_rows randint (k + 192) m
        (heatmap ++ [append_cells randint k 192 []]) (* Width / 10 *)
  end.

(** [_generate_mock_heatmap] *)
Definition _generate_mock_heatmap (randint : nat → Z) : list (list Z) :=
  append_rows randint 0 108 []. (* Height / 10 *)

(** [analyze_canvas]: nothing of the room is read. *)
Definition analyze_canvas (room_id : string) (randint : nat → Z)
  : outcome CanvasAnalytics :=
  reraise_as (String.append "Canvas analysis failed: ")
    (Return {| total_strokes := 150;
               active_users := 3;
               drawing_time := 45.5;
               heatmap_data :=
                 {| hm_width := 1920; hm_height := 1080;
                    hm_data := _generate_mock_heatmap randint |};
               shape_count :=
                 <["line" := 8]> (<["triangle" := 2]> (<["circle" := 3]>
                   (<["rectangle" := 5]> ∅)));
               color_usage :=
                 <["#0000FF" := 20]> (<["#00FF00" := 15]> (<["#FF0000" := 20]>
                   (<["#000000" := 45]> ∅))) |}).

End AIService.

(** ** [app/api/routes.py]: the two AI endpoints *)
Module Routes.

Import AIService.

(** What an endpoint answers: the value it returns, or the
    [HTTPException(status_code, detail)] it raises. *)
Inductive response (A : Type) : Type :=
| Ok (a : A)
| HTTPException (status_code : Z) (detail : string).
Arguments Ok {A} a.
Arguments HTTPException {A} status_code detail.

Section WithImaging.

Context `{Imaging}.

(** [POST /ai/detect-shapes]: the service is called with the image alone. *)
Definition detect_shapes (request : ShapeDetectionRequest)
    (start_time end_time : float) : response ShapeDetectionResult :=
  match AIService.detect_shapes (sd_image_data request)
          default_confidence_threshold start_time end_time with
  | Return result => Ok result
  | Raise e =>
      HTTPException 500 (String.append "Shape detection failed: " (str e))
  end.

(** [POST /ai/ocr]: the service is called with the image alone. *)
Definition perform_ocr (request : OCRRequest)
    (start_time end_time : float) : response OCRResult :=
  match AIService.perform_ocr (ocr_image_data request)
          default_language start_time end_time with
  | Return result => Ok result
  | Raise e => HTTPException 500 (String.append "OCR failed: " (str e))
  end.

End WithImaging.

(** The canvas endpoints work on the module's one [canvas_service]: each
    takes the service as it is and gives it back as the call leaves it. *)

(** The dictionary [{"room_id": ..., "room_name": ...}]. *)
Record RoomCreated : Type := {
  room_id : string;
  room_name : string;
}.

(** [GET /health]: the dictionary [{"status": ..., "message": ...}]. *)
Definition health_check : response (string * string) :=
  Ok ("healthy", "Smart Whiteboard API is running").

(** [POST /rooms] *)
Definition create_room (settings : Settings) (request_room_name : string)
    (uuid4 now : string) (canvas_service : CanvasService.t)
  : response RoomCreated * CanvasService.t :=
  let '(room_id, canvas_service) :=
    CanvasService.create_room settings canvas_service request_room_name
      uuid4 now in
  (Ok {| room_id := room_id; room_name := request_room_name |}, canvas_service).

(** [GET /rooms/{room_id}] *)
Definition get_room_info (room_id : string) (canvas_service : CanvasService.t)
  : response Room.t :=
  match CanvasService.get_room_info canvas_service room_id with
  | Return room_info => Ok room_info
  | Raise e => HTTPException 404 "Room not found"
  end.

(** [POST /ai/analyze] *)
Definition analyze_canvas (room_id : string) (randint : nat → Z)
  : response CanvasAnalytics :=
  match AIService.analyze_canvas room_id randint with
  | Return analytics => Ok analytics
  | Raise e => HTTPException 500 (String.append "Canvas analysis failed: " (str e))
  end.

(** [POST /canvas/save]: the answer on success is the dictionary
    [{"message": "Canvas saved successfully"}]. *)
Definition save_canvas (room_id : string) (drawing_data : DrawingData)
    (canvas_service : CanvasService.t) : response string * CanvasService.t :=
  match CanvasService.save_canvas canvas_service room_id drawing_data with
  | (Return _, canvas_service) => (Ok "Canvas saved successfully", canvas_service)
  | (Raise e, canvas_service) =>
      (HTTPException 500 (String.append "Failed to save canvas: " (str e)),
       canvas_service)
  end.

(** [GET /canvas/{room_id}] *)
Definition get_canvas (room_id : string) (canvas_service : CanvasService.t)
  : response DrawingData :=
  match CanvasService.get_canvas canvas_service room_id with
  | Return canvas_data => Ok canvas_data
  | Raise e => HTTPException 404 "Canvas not found"
  end.

(** [GET /analytics/{room_id}] *)
Definition get_room_analytics (room_id : string)
    (canvas_service : CanvasService.t) : response CanvasAnalytics :=
  Ok (CanvasService.get_room_analytics canvas_service room_id).

Section WithFiles.

Context `{CanvasService.Files}.

Variable UPLOAD_DIR : string.

(** [str(e)] for an [HTTPException(status_code, detail)], as the installed
    Starlette renders it. *)
Variable str_of_http : Z → string → string.

(** [POST /upload]. The [HTTPException] raised under [try] for a file that
    is no image is an [Exception], so the handler below it catches it. *)
Definition upload_image (file : CanvasService.UploadFile) (uuid4 : string)
    (d : CanvasService.disk) : response string * CanvasService.disk :=
  let '(r, d) :=
    match CanvasService.content_type file with
    | Some ct =>
        if bool_decide (ct = "") || negb (String.prefix "image/" ct)
        then (Raise (OtherError "HTTPException"
                       (str_of_http 400 "File must be an image")), d)
        else CanvasService.upload_image UPLOAD_DIR file uuid4 d
    | None =>
        (Raise (OtherError "HTTPException"
                  (str_of_http 400 "File must be an image")), d)
    end in
  match r with
  | Return image_url => (Ok image_url, d)
  | Raise e => (HTTPException 500 (String.append "Upload failed: " (str e)), d)
  end.

End WithFiles.

End Routes.


(** ** [main.py]: the Socket.IO event handlers *)
Module Main.

(** What a client sends with an event, as the JSON decoder hands it over. *)
Inductive json : Type :=
| JNull
| JBool (b : bool)
| JInt (n : Z)
| JFloat (f : float)
| JStr (s : string)
| JList (l : list json)
| JDict (d : list (string * json)).

(** [if v:] *)
Definition truthy (v : json) : bool :=
  match v with
  | JNull => false
  | JBool b => b
  | JInt n => negb (n =? 0)
  | JFloat f => negb (PrimFloat.eqb f 0)
  | JStr s => negb (bool_decide (s = ""))
  | JList l => match l with [] => false | _ => true end
  | JDict d => match d with [] => false | _ => true end
  end.

(** [data.get(key)] on the dictionary an event carries. *)
Definition get (data : gmap string json) (key : string) : json :=
  default JNull (data !! key).

(** What a handler does to the outside: print a line, or call the
    Socket.IO server [sio] ([enter_room], [leave_room], and [emit] with its
    [room=] and [skip_sid=] arguments; an [emit] without [room=] goes to
    every connection). *)
Inductive action : Type :=
| Print (line : string)
| EnterRoom (sid : string) (room : json)
| LeaveRoom (sid : string) (room : json)
| Emit (event : string) (data : gmap string json) (room : option json)
       (skip_sid : string).

(** [connect] *)
Definition connect (sid : string) : list action :=
  [ Print (String.append "Client connected: " sid);
    Emit "user_connected" {[ "sid" := JStr sid ]} None sid ].

(** [disconnect] *)
Definition disconnect (sid : string) : list action :=
  [ Print (String.append "Client disconnected: " sid);
    Emit "user_disconnected" {[ "sid" := JStr sid ]} None sid ].

(** [join_room] *)
Definition join_room (sid : string) (data : gmap string json) : list action :=
  let room := get data "room" in
  if truthy room then
    [ EnterRoom sid room;
      Emit "user_joined_room" (<["sid" := JStr sid]> {[ "room" := room ]})
        (Some room) sid ]
  else [].

(** [leave_room] *)
Definition leave_room (sid : string) (data : gmap string json) : list action :=
  let room := get data "room" in
  if truthy room then
    [ LeaveRoom sid room;
      Emit "user_left_room" (<["sid" := JStr sid]> {[ "room" := room ]})
        (Some room) sid ]
  else [].

(** [process_drawing_data] *)
Definition process_drawing_data (data : gmap string json) : gmap string json :=
  data.

(** [draw_data] *)
Definition draw_data (sid : string) (data : gmap string json) : list action :=
  let room := get data "room" in
  if truthy room then
    (* Process drawing data with AI if needed *)
    let processed_data := process_drawing_data data in
    [ Emit "drawing_update" processed_data (Some room) sid ]
  else [].

(** [clear_canvas] *)
Definition clear_canvas (sid : string) (data : gmap string json) : list action :=
  let room := get data "room" in
  if truthy room then
    [ Emit "canvas_cleared" {[ "room" := room ]} (Some room) sid ]
  else [].

End Main.
(** * Specification vocabulary *)

Import CanvasService.

(** ** Tallies: what the two counting loops compute *)

(** The number of strokes of [ss] whose key is [k], where [key] says under
    which key a stroke is counted, if any. *)
Definition occurrences (key : DrawingStroke → option string) (k : string)
    (ss : list DrawingStroke) : Z :=
  len (filter (fun s => key s = Some k) ss).

(** A counting dictionary holds a key exactly when its count is not zero. *)
Definition as_count (n : Z) : option Z :=
  if decide (n = 0) then None else Some n.

(** The counting loop over an arbitrary key, from an arbitrary dictionary. *)
Definition tally (key : DrawingStroke → option string)
    (ss : list DrawingStroke) (d : gmap string Z) : gmap string Z :=
  fold_left
    (fun d s => match key s with Some k => bump k d | None => d end) ss d.

(** The keys of the two counting loops: every stroke counts under its
    colour, and a stroke with a shape kind under the kind's string. *)
Definition color_key (s : DrawingStroke) : option string := Some (color s).

Definition shape_key (s : DrawingStroke) : option string :=
  value <$> shape_type s.

(** ** The invariant of the canvas service

    What every state reached from [init] satisfies: the registry and the
    canvas dictionary hold the same rooms; a stored analytics record is the
    recomputation, from the initial record, of the room's stored document;
    and no member count is negative. *)
Definition consistent (self : CanvasService.t) : Prop :=
  (∀ r, is_Some (canvas_data self !! r) ↔ is_Some (rooms self !! r))
  ∧ (∀ r a, analytics self !! r = Some a →
       ∃ d, canvas_data self !! r = Some d ∧ a = recompute initial_analytics d)
  ∧ (∀ r room, rooms self !! r = Some room → 0 ≤ Room.active_users room).

(** [n] calls of [leave_room] in a row. *)
Definition leave_times (n : nat) (room_id user_id : string)
    (self : CanvasService.t) : CanvasService.t :=
  Nat.iter n (fun self => snd (leave_room self room_id user_id)) self.

(** The member count the registry holds for a room ([None] when absent). *)
Definition member_count (self : CanvasService.t) (room_id : string) : option Z :=
  Room.active_users <$> rooms self !! room_id.

(** The room a call addresses. *)
Definition target (c : call) : string :=
  match c with
  | CreateRoom _ uuid4 _ => uuid4
  | SaveCanvas room_id _ => room_id
  | JoinRoom room_id _ => room_id
  | LeaveRoom room_id _ => room_id
  | DeleteRoom room_id => room_id
  end.

(** Joining and leaving: the calls that only count members. *)
Definition counts_members (c : call) : Prop :=
  match c with
  | JoinRoom _ _ | LeaveRoom _ _ => True
  | _ => False
  end.

(** ** A worked session: room "Team A" and a three-stroke document *)

Definition team_a_id : string := "3f2b8c1e-5d4a-4e6f-9a7b-0c1d2e3f4a5b".

(** The service after [create_room("Team A")] on a new service. *)
Definition team_a : CanvasService.t :=
  snd (create_room default_settings init "Team A" team_a_id "2024-05-01T09:00:00").

Definition a_stroke (c : string) (t : ToolType) (st : option ShapeType)
  : DrawingStroke :=
  {| points := [ {| x := 10; y := 20; pressure := Some 1%float |};
                 {| x := 30; y := 40; pressure := Some 1%float |} ];
     color := c; width := 2; tool := t; shape_type := st |}.

(** Three strokes, coloured red, red and blue; the second is a circle. *)
Definition three_strokes : DrawingData :=
  {| strokes := [ a_stroke "red" PEN None;
                  a_stroke "red" SHAPE (Some CIRCLE);
                  a_stroke "blue" PEN None ];
     canvas_width := 1920; canvas_height := 1080;
     background_color := "#ffffff"; timestamp := None |}.

(** "Team A" after two members joined and the document was saved. *)
Definition team_a_two_members_saved : CanvasService.t :=
  let s := snd (join_room team_a team_a_id "alice") in
  let s := snd (join_room s team_a_id "bob") in
  snd (save_canvas s team_a_id three_strokes).

(** ** Vocabulary for the AI service *)

Import AIService.

(** The mean the two services report: the sum divided by the count, and 0
    for no value at all. *)
Definition mean_of_floats (xs : list float) : float :=
  match xs with
  | [] => 0%float
  | _ => PrimFloat.div (sum xs) (float_of_Z (len xs))
  end.

Definition mean_of_ints (ns : list Z) : float :=
  match ns with
  | [] => 0%float
  | _ => PrimFloat.div (float_of_Z (foldr Z.add 0 ns)) (float_of_Z (len ns))
  end.

(** A shape is retained under a threshold when its confidence is greater
    than or equal to it. *)
Definition meets (confidence_threshold : float) (s : ShapeInfo) : Prop :=
  PrimFloat.leb confidence_threshold (confidence s) = true.

#[global] Instance meets_dec thr s : Decision (meets thr s).
Proof. unfold meets. apply _. Defined.

(** What the loop of [detect_shapes] classifies for a contour: the polygon
    approximating it within 2% of its perimeter. *)
Definition classified `{Imaging} (c : contour) : outcome ShapeInfo :=
  _classify_shape
    (approxPolyDP c (PrimFloat.mul 0.02 (arcLength c true)) true).

(** The text fragment the table holds in row [i]. *)
Definition fragment (data : TessData) (i : nat) : option BoundingBox :=
  c ← conf data !! i;
  t ← data_text data !! i;
  x ← left data !! i;
  y ← top data !! i;
  w ← data_width data !! i;
  h ← data_height data !! i;
  Some {| bb_text := t; bb_confidence := c;
          bbox := {| bbox_x := x; bbox_y := y;
                     bbox_width := w; bbox_height := h |} |}.

(** The fragments of the table, row by row. *)
Definition fragments (data : TessData) : list BoundingBox :=
  omap (fragment data) (seq 0 (length (conf data))).

(** The table is rectangular: every column is as long as [conf]. *)
Definition rectangular (data : TessData) : Prop :=
  length (data_text data) = length (conf data)
  ∧ length (left data) = length (conf data)
  ∧ length (top data) = length (conf data)
  ∧ length (data_width data) = length (conf data)
  ∧ length (data_height data) = length (conf data).

(** A fragment is kept when its confidence is above the cutoff 60. *)
Definition above_cutoff (b : BoundingBox) : Prop := 60 < bb_confidence b.

#[global] Instance above_cutoff_dec b : Decision (above_cutoff b).
Proof. unfold above_cutoff. apply _. Defined.

(** *** A small imaging back end to run the services on

    Contours are looked up by the name the payload spells; the geometry is
    computed from the integer points: the bounding box by minima and maxima,
    the area by the shoelace formula, the perimeter as the sum of the side
    lengths. Polygon approximation keeps the contour as it is. *)
Definition triangle_contour : contour := [(0, 0); (40, 0); (0, 30)].

Definition square_contour : contour := [(0, 0); (50, 0); (50, 50); (0, 50)].

Definition wide_contour : contour := [(0, 0); (100, 0); (100, 50); (0, 50)].

Definition pentagon_contour : contour :=
  [(20, 0); (40, 15); (32, 38); (8, 38); (0, 15)].

(** Twelve points of a circle of radius 100. *)
Definition round_contour : contour :=
  [(100, 0); (87, 50); (50, 87); (0, 100); (-50, 87); (-87, 50);
   (-100, 0); (-87, -50); (-50, -87); (0, -100); (50, -87); (87, -50)].

(** Nine points of a thin sliver. *)
Definition sliver_contour : contour :=
  [(0, 0); (25, 0); (50, 0); (75, 0); (100, 0); (100, 1); (50, 1); (25, 1); (0, 1)].

Definition sample_boundingRect (c : contour) : Z * Z * Z * Z :=
  match c with
  | [] => (0, 0, 0, 0)
  | (x0, y0) :: ps =>
      let x_min := foldr Z.min x0 (fst <$> ps) in
      let x_max := foldr Z.max x0 (fst <$> ps) in
      let y_min := foldr Z.min y0 (snd <$> ps) in
      let y_max := foldr Z.max y0 (snd <$> ps) in
      (x_min, y_min, x_max - x_min + 1, y_max - y_min + 1)
  end.

(** The pairs of consecutive points of a closed contour. *)
Definition sides (c : contour) : list ((Z * Z) * (Z * Z)) :=
  match c with
  | [] => []
  | p :: ps => zip c (ps ++ [p])
  end.

Definition sample_contourArea (c : contour) : float :=
  let twice :=
    foldr Z.add 0
      ((fun '((x1, y1), (x2, y2)) => x1 * y2 - x2 * y1) <$> sides c) in
  PrimFloat.div (float_of_Z (Z.abs twice)) 2.

Definition sample_arcLength (c : contour) (closed : bool) : float :=
  sum ((fun '((x1, y1), (x2, y2)) =>
          PrimFloat.sqrt
            (float_of_Z ((x2 - x1) * (x2 - x1) + (y2 - y1) * (y2 - y1))))
       <$> (if closed then sides c else zip c (tail c))).

Definition named_contours : list (string * list contour) :=
  [ ("triangle", [triangle_contour]);
    ("square", [square_contour]);
    ("pentagon", [pentagon_contour]);
    ("mixed", [triangle_contour; pentagon_contour; wide_contour; round_contour]) ].

Definition sample_find_contours (payload : string) : outcome (list contour) :=
  match list_find (fun e => fst e = payload) named_contours with
  | Some (_, (_, cs)) => Return cs
  | None => Raise (OtherError "binascii.Error" "Incorrect padding")
  end.

(** A table of five rows, two of them above the cutoff. *)
Definition sample_table : TessData :=
  {| conf := [-1; 95; 60; 61; 42];
     data_text := [""; "Team"; "A"; "plan"; "x"];
     left := [0; 10; 60; 80; 140];
     top := [0; 12; 12; 12; 14];
     data_width := [200; 45; 15; 50; 8];
     data_height := [40; 20; 20; 20; 16] |}.

Definition sample_tesseract (payload language : string)
  : outcome (string * TessData) :=
  if decide (payload = "note")
  then Return (String.append "Team A plan x" (String "010"%char EmptyString),
               sample_table)
  else Raise (OtherError "binascii.Error" "Incorrect padding").

Definition sample_imaging : Imaging :=
  {| find_contours := sample_find_contours;
     arcLength := sample_arcLength;
     approxPolyDP := fun c _ _ => c;
     contourArea := sample_contourArea;
     boundingRect := sample_boundingRect;
     tesseract := sample_tesseract |}.

(** The kind and confidence the classifier gives a contour on the sample
    back end ([None] if it raises). *)
Definition classify_sample (c : contour) : option (string * float) :=
  match @_classify_shape sample_imaging c with
  | Return info => Some (type info, confidence info)
  | Raise _ => None
  end.

(** A request for the shapes of the pentagon picture that asks for every
    shape of confidence 0.5 or more. *)
Definition pentagon_request : ShapeDetectionRequest :=
  {| sd_image_data := "data:image/png;base64,pentagon";
     sd_confidence_threshold := 0.5;
     sd_max_shapes := 10 |}.

Definition note_request (threshold : float) : OCRRequest :=
  {| ocr_image_data := "note";
     ocr_language := "eng";
     ocr_confidence_threshold := threshold |}.


(** ** Further vocabulary for the canvas service *)

(** The sum of the counts a counting dictionary holds. *)
Definition total (d : gmap string Z) : Z :=
  map_fold (fun _ n acc => n + acc) 0 d.

(** What the three dictionaries hold for one room. *)
Definition entries (self : CanvasService.t) (room_id : string)
  : option Room.t * option DrawingData * option CanvasAnalytics :=
  (rooms self !! room_id, canvas_data self !! room_id, analytics self !! room_id).

(** A sequence of calls, run in order. *)
Definition run_all (settings : Settings) (self : CanvasService.t)
    (cs : list call) : CanvasService.t :=
  fold_left (run settings) cs self.

(** What the registry records of a room besides its member count: the key
    it is stored under and the default canvas size. *)
Definition well_keyed (settings : Settings) (self : CanvasService.t) : Prop :=
  ∀ r room, rooms self !! r = Some room →
    Room.id room = r
    ∧ Room.canvas_width room = DEFAULT_CANVAS_WIDTH settings
    ∧ Room.canvas_height room = DEFAULT_CANVAS_HEIGHT settings.

(** The calls that save a document in room [r]. *)
Definition saves_in (r : string) (c : call) : Prop :=
  match c with
  | SaveCanvas room_id _ => room_id = r
  | _ => False
  end.

(** ** The HTTP surface of the canvas service

    The requests that reach the canvas service, what serving one leaves of
    the service, and the states the endpoints alone can reach. As for
    [reachable], the identifier drawn for a new room names no room yet. *)
Inductive request : Type :=
| PostRooms (room_name uuid4 now : string)
| GetRoom (room_id : string)
| PostCanvasSave (room_id : string) (drawing_data : DrawingData)
| GetCanvas (room_id : string)
| GetAnalytics (room_id : string).

Definition serve (settings : Settings) (canvas_service : CanvasService.t)
    (q : request) : CanvasService.t :=
  match q with
  | PostRooms room_name uuid4 now =>
      snd (Routes.create_room settings room_name uuid4 now canvas_service)
  | PostCanvasSave room_id drawing_data =>
      snd (Routes.save_canvas room_id drawing_data canvas_service)
  | GetRoom _ | GetCanvas _ | GetAnalytics _ => canvas_service
  end.

Definition draws_fresh_id (canvas_service : CanvasService.t) (q : request) : Prop :=
  match q with
  | PostRooms _ uuid4 _ => rooms canvas_service !! uuid4 = None
  | _ => True
  end.

Inductive served (settings : Settings) : CanvasService.t → Prop :=
| served_init : served settings init
| served_request canvas_service q :
    served settings canvas_service →
    draws_fresh_id canvas_service q →
    served settings (serve settings canvas_service q).

(** The status an endpoint answers with (200 for a returned value). *)
Definition status {A : Type} (r : Routes.response A) : Z :=
  match r with
  | Routes.Ok _ => 200
  | Routes.HTTPException status_code _ => status_code
  end.

(** ** Uploads *)

(** The test of [POST /upload]: the content type is there, is not empty
    and starts with "image/". *)
Definition is_image (file : UploadFile) : bool :=
  match content_type file with
  | Some ct => negb (bool_decide (ct = "")) && String.prefix "image/" ct
  | None => false
  end.

(** A disk to run uploads on: the files by path; directories always exist,
    opening with ['wb'] leaves the file empty, writing fills it. The
    extension is what follows the last dot of the name. *)
Fixpoint last_dot_suffix (s : string) : option string :=
  match s with
  | EmptyString => None
  | String c s' =>
      match last_dot_suffix s' with
      | Some ext => Some ext
      | None => if Ascii.eqb c "."%char then Some s else None
      end
  end.

Definition sample_files : Files :=
  {| disk := gmap string (list Byte.byte);
     makedirs := fun _ d => (Return tt, d);
     splitext := fun s =>
       match last_dot_suffix s with
       | Some ext =>
           (String.substring 0 (String.length s - String.length ext) s, ext)
       | None => (s, "")
       end;
     path_join := fun a b => String.append a (String.append "/" b);
     open_wb := fun p d => (Return tt, <[p := []]> d);
     write := fun p content d => (Return tt, <[p := content]> d) |}.

(** A picture of three bytes; the same upload sent as plain text; and a
    picture whose body cannot be read. *)
Definition a_picture : UploadFile :=
  {| filename := Some "sketch.png";
     content_type := Some "image/png";
     read := Return [Byte.x89; Byte.x50; Byte.x4e] |}.

Definition a_text_file : UploadFile :=
  {| filename := Some "notes.txt";
     content_type := Some "text/plain";
     read := Return [Byte.x68; Byte.x69] |}.

Definition a_broken_picture : UploadFile :=
  {| filename := Some "sketch.png";
     content_type := Some "image/png";
     read := Raise (OtherError "ClientDisconnect" "connection lost") |}.

(** How Starlette renders an [HTTPException]: "status: detail". *)
Definition sample_str_of_http (status_code : Z) (detail : string) : string :=
  String.append (if status_code =? 400 then "400" else "500")
    (String.append ": " detail).

(** ** Further vocabulary for the AI service *)

(** What the classifier returns for the four contours of the sample
    picture "mixed". *)
Definition mixed_infos : list ShapeInfo :=
  [ {| type := "triangle"; confidence := 0.9; vertices := 3; area := 600 |};
    {| type := "unknown"; confidence := 0.5; vertices := 5; area := 1036 |};
    {| type := "rectangle"; confidence := 0.8; vertices := 4; area := 5000 |};
    {| type := "circle"; confidence := 0.97701792027584355;
       vertices := 12; area := 30138 |} ].

(** A request for the shapes of "mixed" that asks for confidence 0.99 and
    one shape at most. *)
Definition mixed_request : ShapeDetectionRequest :=
  {| sd_image_data := "data:image/png;base64,mixed";
     sd_confidence_threshold := 0.99;
     sd_max_shapes := 1 |}.

(** A string without a comma. *)
Fixpoint comma_free (s : string) : bool :=
  match s with
  | EmptyString => true
  | String c s' => negb (Ascii.eqb c ","%char) && comma_free s'
  end.

(** A table whose last row, of confidence 30, has no text and no box. *)
Definition ragged_table : TessData :=
  {| conf := [95; 61; 30];
     data_text := ["Team"; "plan"];
     left := [10; 80];
     top := [12; 12];
     data_width := [45; 50];
     data_height := [20; 20] |}.

(** A table whose last row, of confidence 88, has no text. *)
Definition torn_table : TessData :=
  {| conf := [95; 88];
     data_text := ["Team"];
     left := [10; 80];
     top := [12; 12];
     data_width := [45; 50];
     data_height := [20; 20] |}.

Definition table_imaging (data : TessData) : Imaging :=
  {| find_contours := sample_find_contours;
     arcLength := sample_arcLength;
     approxPolyDP := fun c _ _ => c;
     contourArea := sample_contourArea;
     boundingRect := sample_boundingRect;
     tesseract := fun _ _ => Return ("Team plan", data) |}.

(** ** The realtime events *)

(** The events a client can send, with what they carry. *)
Inductive client_event : Type :=
| Connect
| Disconnect
| JoinRoomEvent (data : gmap string Main.json)
| LeaveRoomEvent (data : gmap string Main.json)
| DrawData (data : gmap string Main.json)
| ClearCanvas (data : gmap string Main.json).

Definition handle (sid : string) (ev : client_event) : list Main.action :=
  match ev with
  | Connect => Main.connect sid
  | Disconnect => Main.disconnect sid
  | JoinRoomEvent data => Main.join_room sid data
  | LeaveRoomEvent data => Main.leave_room sid data
  | DrawData data => Main.draw_data sid data
  | ClearCanvas data => Main.clear_canvas sid data
  end.

(** What a room-scoped event carries ([None] for connect and disconnect). *)
Definition carried (ev : client_event) : option (gmap string Main.json) :=
  match ev with
  | Connect | Disconnect => None
  | JoinRoomEvent data | LeaveRoomEvent data
  | DrawData data | ClearCanvas data => Some data
  end.

(** The emits among the actions: event, payload, room and skipped sid. *)
Definition emits (l : list Main.action)
  : list (string * gmap string Main.json * option Main.json * string) :=
  omap (fun a => match a with
                 | Main.Emit event data room skip_sid =>
                     Some (event, data, room, skip_sid)
                 | _ => None
                 end) l.

(** * Proofs *)

(** ** The counting loops *)

Lemma occurrences_nonneg key k ss : 0 ≤ occurrences key k ss.
Proof. unfold occurrences, len. lia. Qed.

Lemma occurrences_cons key k s ss :
  occurrences key k (s :: ss)
  = (if decide (key s = Some k) then 1 else 0) + occurrences key k ss.
Proof.
  unfold occurrences, len. rewrite filter_cons.
  destruct (decide (key s = Some k)); simpl; lia.
Qed.

Lemma tally_lookup key ss : ∀ (d : gmap string Z) k,
  tally key ss d !! k
  = if decide (occurrences key k ss = 0) then d !! k
    else Some (default 0 (d !! k) + occurrences key k ss).
Proof.
  induction ss as [|s ss IH]; intros d k.
  - reflexivity.
  - change (tally key (s :: ss) d)
      with (tally key ss (match key s with Some k' => bump k' d | None => d end)).
    rewrite IH, occurrences_cons.
    pose proof (occurrences_nonneg key k ss) as Hnn.
    destruct (key s) as [k'|] eqn:Hkey.
    + destruct (decide (k' = k)) as [->|Hne].
      * rewrite (decide_True (P := Some k = Some k)) by reflexivity.
        unfold bump. rewrite lookup_insert_eq. simpl.
        rewrite (decide_False (P := 1 + _ = 0)) by lia.
        destruct (decide (occurrences key k ss = 0)) as [->|_]; f_equal; lia.
      * rewrite (decide_False (P := Some k' = Some k)) by congruence.
        unfold bump. rewrite lookup_insert_ne by assumption. reflexivity.
    + rewrite (decide_False (P := None = Some k)) by discriminate. reflexivity.
Qed.

Lemma tally_empty_lookup key ss k :
  tally key ss ∅ !! k = as_count (occurrences key k ss).
Proof.
  rewrite tally_lookup, lookup_empty. unfold as_count. simpl.
  destruct (decide (occurrences key k ss = 0)); [reflexivity | f_equal; lia].
Qed.

Lemma fold_left_pointwise {A B : Type} (f g : A → B → A) (l : list B) :
  (∀ a b, f a b = g a b) → ∀ a, fold_left f l a = fold_left g l a.
Proof.
  intros Hfg. induction l as [|b l IH]; intros a; simpl; [reflexivity|].
  rewrite Hfg. apply IH.
Qed.

Lemma count_colors_tally ss : count_colors ss = tally color_key ss ∅.
Proof. reflexivity. Qed.

Lemma truthy_some st : truthy (Some st) = true.
Proof. destruct st; reflexivity. Qed.

Lemma count_shapes_tally ss : count_shapes ss = tally shape_key ss ∅.
Proof.
  unfold count_shapes, tally. apply fold_left_pointwise.
  intros d s. unfold shape_key.
  destruct (shape_type s) as [st|]; simpl; [|reflexivity].
  destruct st; reflexivity.
Qed.

Lemma count_colors_lookup ss c :
  count_colors ss !! c = as_count (occurrences color_key c ss).
Proof. rewrite count_colors_tally. apply tally_empty_lookup. Qed.

Lemma count_shapes_lookup ss k :
  count_shapes ss !! k = as_count (occurrences shape_key k ss).
Proof. rewrite count_shapes_tally. apply tally_empty_lookup. Qed.

(** ** The operations of the canvas service, one equation each *)

Lemma recompute_recompute a d' d : recompute (recompute a d') d = recompute a d.
Proof. reflexivity. Qed.

Lemma update_room_analytics_eq self r d :
  _update_room_analytics self r d
  = set_analytics
      (<[r := recompute (default initial_analytics (analytics self !! r)) d]>
         (analytics self)) self.
Proof.
  unfold _update_room_analytics.
  destruct (analytics self !! r) as [a|] eqn:Ha; simpl.
  - rewrite Ha. reflexivity.
  - rewrite lookup_insert_eq. unfold set_analytics. simpl.
    rewrite insert_insert_eq. reflexivity.
Qed.

Lemma save_canvas_unknown self r d :
  rooms self !! r = None →
  save_canvas self r d = (Raise (Exception "Room not found"), self).
Proof. intros Hr. unfold save_canvas. rewrite Hr. reflexivity. Qed.

Lemma save_canvas_known self r d :
  is_Some (rooms self !! r) →
  save_canvas self r d
  = (Return tt,
     {| rooms := rooms self;
        canvas_data := <[r := d]> (canvas_data self);
        analytics :=
          <[r := recompute (default initial_analytics (analytics self !! r)) d]>
            (analytics self) |}).
Proof.
  intros [room Hr]. unfold save_canvas. rewrite Hr.
  rewrite update_room_analytics_eq. reflexivity.
Qed.

Lemma delete_room_eq self r :
  delete_room self r
  = (Return tt,
     {| rooms := delete r (rooms self);
        canvas_data := delete r (canvas_data self);
        analytics := delete r (analytics self) |}).
Proof.
  unfold delete_room. destruct self as [rs cs an]. simpl.
  destruct (decide (is_Some (rs !! r))); simpl;
    destruct (decide (is_Some (cs !! r))); simpl;
    destruct (decide (is_Some (an !! r))); simpl;
    unfold set_rooms, set_canvas_data, set_analytics; simpl;
    repeat f_equal;
    try reflexivity;
    symmetry; apply delete_id; by apply eq_None_not_Some.
Qed.

Lemma create_room_eq settings self room_name uuid4 now :
  create_room settings self room_name uuid4 now
  = (uuid4,
     {| rooms :=
          <[uuid4 := {| Room.id := uuid4;
                        Room.name := room_name;
                        Room.created_at := now;
                        Room.active_users := 0;
                        Room.canvas_width := DEFAULT_CANVAS_WIDTH settings;
                        Room.canvas_height := DEFAULT_CANVAS_HEIGHT settings |}]>
            (rooms self);
        canvas_data :=
          <[uuid4 := DrawingData_sized (DEFAULT_CANVAS_WIDTH settings)
                                       (DEFAULT_CANVAS_HEIGHT settings)]>
            (canvas_data self);
        analytics := analytics self |}).
Proof. reflexivity. Qed.

Lemma leave_room_absent self r u :
  rooms self !! r = None → leave_room self r u = (Return tt, self).
Proof. intros Hr. unfold leave_room. rewrite Hr. reflexivity. Qed.

Lemma leave_room_present self r u room :
  rooms self !! r = Some room →
  leave_room self r u
  = (Return tt,
     set_rooms
       (<[r := Room.set_active_users (Z.max 0 (Room.active_users room - 1)) room]>
          (rooms self)) self).
Proof. intros Hr. unfold leave_room. rewrite Hr. reflexivity. Qed.

Lemma join_room_absent self r u :
  rooms self !! r = None →
  join_room self r u = (Raise (Exception "Room not found"), self).
Proof. intros Hr. unfold join_room. rewrite Hr. reflexivity. Qed.

Lemma join_room_present self r u room :
  rooms self !! r = Some room →
  join_room self r u
  = (Return tt,
     set_rooms
       (<[r := Room.set_active_users (Room.active_users room + 1) room]>
          (rooms self)) self).
Proof. intros Hr. unfold join_room. rewrite Hr. reflexivity. Qed.

(** ** The invariant holds in every reachable state *)

Section Invariant.

Variable settings : Settings.

Lemma consistent_init : consistent init.
Proof.
  repeat split; simpl; intros *; rewrite ?lookup_empty;
    try (intros [? ?]; discriminate); discriminate.
Qed.

Lemma consistent_fresh self r :
  consistent self → rooms self !! r = None →
  canvas_data self !! r = None ∧ analytics self !! r = None.
Proof.
  intros (Hdom & Han & _) Hr.
  assert (Hc : canvas_data self !! r = None).
  { apply eq_None_not_Some. rewrite Hdom, Hr. by intros [? ?]. }
  split; [exact Hc|].
  destruct (analytics self !! r) as [a|] eqn:Ha; [|reflexivity].
  destruct (Han r a Ha) as (d & Hd & _). congruence.
Qed.

Lemma consistent_create self room_name uuid4 now :
  consistent self → rooms self !! uuid4 = None →
  consistent (snd (create_room settings self room_name uuid4 now)).
Proof.
  intros Hc Hfresh.
  destruct (consistent_fresh self uuid4 Hc Hfresh) as [_ Hna].
  destruct Hc as (Hdom & Han & Hau).
  rewrite create_room_eq. repeat split; simpl.
  - destruct (decide (r = uuid4)) as [->|Hne].
    + rewrite !lookup_insert_eq. eauto.
    + rewrite !lookup_insert_ne by congruence. apply Hdom.
  - destruct (decide (r = uuid4)) as [->|Hne].
    + rewrite !lookup_insert_eq. eauto.
    + rewrite !lookup_insert_ne by congruence. apply Hdom.
  - intros r a Ha. destruct (decide (r = uuid4)) as [->|Hne]; [congruence|].
    rewrite lookup_insert_ne by congruence. by apply Han.
  - intros r room. destruct (decide (r = uuid4)) as [->|Hne].
    + rewrite lookup_insert_eq. intros [= <-]. simpl. lia.
    + rewrite lookup_insert_ne by congruence. apply Hau.
Qed.

Lemma consistent_save self r d :
  consistent self → consistent (snd (save_canvas self r d)).
Proof.
  intros Hc. destruct (rooms self !! r) as [room|] eqn:Hr.
  - rewrite save_canvas_known by eauto. simpl.
    destruct Hc as (Hdom & Han & Hau). repeat split; simpl.
    + destruct (decide (r0 = r)) as [->|Hne].
      * rewrite lookup_insert_eq. eauto.
      * rewrite lookup_insert_ne by congruence. apply Hdom.
    + destruct (decide (r0 = r)) as [->|Hne].
      * rewrite lookup_insert_eq. eauto.
      * rewrite lookup_insert_ne by congruence. apply Hdom.
    + intros r' a. destruct (decide (r' = r)) as [->|Hne].
      * rewrite !lookup_insert_eq. intros [= <-]. exists d. split; [reflexivity|].
        destruct (analytics self !! r) as [a0|] eqn:Ha0; simpl; [|reflexivity].
        destruct (Han r a0 Ha0) as (d0 & _ & ->). reflexivity.
      * rewrite !lookup_insert_ne by congruence. apply Han.
    + exact Hau.
  - rewrite save_canvas_unknown by assumption. exact Hc.
Qed.

Lemma consistent_set_count self r room n :
  consistent self → rooms self !! r = Some room → 0 ≤ n →
  consistent (set_rooms (<[r := Room.set_active_users n room]> (rooms self)) self).
Proof.
  intros (Hdom & Han & Hau) Hr Hn. unfold set_rooms. repeat split; simpl.
  - rewrite Hdom. destruct (decide (r0 = r)) as [->|Hne].
    + rewrite lookup_insert_eq. eauto.
    + by rewrite lookup_insert_ne by congruence.
  - rewrite Hdom. destruct (decide (r0 = r)) as [->|Hne].
    + rewrite lookup_insert_eq, Hr. eauto.
    + by rewrite lookup_insert_ne by congruence.
  - exact Han.
  - intros r' room'. destruct (decide (r' = r)) as [->|Hne].
    + rewrite lookup_insert_eq. intros [= <-]. exact Hn.
    + rewrite lookup_insert_ne by congruence. apply Hau.
Qed.

Lemma consistent_join self r u :
  consistent self → consistent (snd (join_room self r u)).
Proof.
  intros Hc. destruct (rooms self !! r) as [room|] eqn:Hr.
  - rewrite (join_room_present _ _ _ _ Hr). simpl.
    apply consistent_set_count; [exact Hc | exact Hr |].
    destruct Hc as (_ & _ & Hau). specialize (Hau r room Hr). lia.
  - rewrite join_room_absent by assumption. exact Hc.
Qed.

Lemma consistent_leave self r u :
  consistent self → consistent (snd (leave_room self r u)).
Proof.
  intros Hc. destruct (rooms self !! r) as [room|] eqn:Hr.
  - rewrite (leave_room_present _ _ _ _ Hr). simpl.
    apply consistent_set_count; [exact Hc | exact Hr | lia].
  - rewrite leave_room_absent by assumption. exact Hc.
Qed.

Lemma consistent_delete self r :
  consistent self → consistent (snd (delete_room self r)).
Proof.
  intros (Hdom & Han & Hau). rewrite delete_room_eq. repeat split; simpl.
  - destruct (decide (r0 = r)) as [->|Hne].
    + rewrite !lookup_delete_eq. by intros [? ?].
    + rewrite !lookup_delete_ne by congruence. apply Hdom.
  - destruct (decide (r0 = r)) as [->|Hne].
    + rewrite !lookup_delete_eq. by intros [? ?].
    + rewrite !lookup_delete_ne by congruence. apply Hdom.
  - intros r' a. destruct (decide (r' = r)) as [->|Hne].
    + rewrite lookup_delete_eq. discriminate.
    + rewrite !lookup_delete_ne by congruence. apply Han.
  - intros r' room. destruct (decide (r' = r)) as [->|Hne].
    + rewrite lookup_delete_eq. discriminate.
    + rewrite lookup_delete_ne by congruence. apply Hau.
Qed.

Lemma reachable_consistent self : reachable settings self → consistent self.
Proof.
  induction 1 as [|self c _ IH Hadm].
  - apply consistent_init.
  - destruct c; simpl in *.
    + by apply consistent_create.
    + by apply consistent_save.
    + by apply consistent_join.
    + by apply consistent_leave.
    + by apply consistent_delete.
Qed.

End Invariant.

(** ** The claims about the canvas service *)

Lemma reachable_team_a : reachable default_settings team_a.
Proof.
  apply (reachable_run default_settings init
           (CreateRoom "Team A" team_a_id "2024-05-01T09:00:00")).
  - apply reachable_init.
  - reflexivity.
Defined.

Lemma reachable_team_a_two_members_saved :
  reachable default_settings team_a_two_members_saved.
Proof.
  apply (reachable_run default_settings _ (SaveCanvas team_a_id three_strokes)).
  - apply (reachable_run default_settings _ (JoinRoom team_a_id "bob")).
    + apply (reachable_run default_settings _ (JoinRoom team_a_id "alice")).
      * apply reachable_team_a.
      * exact I.
    + exact I.
  - exact I.
Defined.

(** C1, as stated, fails: a room that was created and never saved has a
    canvas. [create_room] stores an empty document for the new room, and
    [get_canvas] returns it instead of raising "Canvas not found". *)
Lemma C1_created_room_has_canvas :
  get_canvas team_a team_a_id = Return (DrawingData_sized 1920 1080)
  ∧ get_canvas team_a team_a_id ≠ Raise (Exception "Canvas not found").
Proof. split; [reflexivity | discriminate]. Qed.

(** C1, amended. In every reachable state [get_canvas r] raises
    "Canvas not found" exactly when [r] is no room of the registry (never
    created, or deleted); otherwise it returns the stored document: the
    empty default document right after [create_room], the document [d] after
    a successful [save_canvas r d], and unchanged by joins, leaves and by
    calls that address another room. *)
Theorem C1_get_canvas settings self r :
  reachable settings self →
  (get_canvas self r = Raise (Exception "Canvas not found")
     ↔ rooms self !! r = None)
  ∧ (∀ d, canvas_data self !! r = Some d → get_canvas self r = Return d)
  ∧ (∀ room_name now,
       get_canvas (snd (create_room settings self room_name r now)) r
       = Return (DrawingData_sized (DEFAULT_CANVAS_WIDTH settings)
                                   (DEFAULT_CANVAS_HEIGHT settings)))
  ∧ (∀ d, is_Some (rooms self !! r) →
       get_canvas (snd (save_canvas self r d)) r = Return d)
  ∧ (∀ c, target c ≠ r ∨ counts_members c →
       get_canvas (run settings self c) r = get_canvas self r).
Proof.
  intros Hreach. pose proof (reachable_consistent _ _ Hreach) as (Hdom & _ & _).
  unfold get_canvas. repeat split.
  - intros Hget. apply eq_None_not_Some. rewrite <- Hdom.
    destruct (canvas_data self !! r); [discriminate | by intros [? ?]].
  - intros Hr. assert (Hc : canvas_data self !! r = None).
    { apply eq_None_not_Some. rewrite Hdom, Hr. by intros [? ?]. }
    by rewrite Hc.
  - by intros d ->.
  - intros room_name now. rewrite create_room_eq. simpl.
    by rewrite lookup_insert_eq.
  - intros d Hr. rewrite save_canvas_known by assumption. simpl.
    by rewrite lookup_insert_eq.
  - intros c Hc.
    destruct c as [n u t|r' d|r' u|r' u|r']; unfold run;
      cbn [target counts_members] in Hc.
    + destruct Hc as [Hne|[]]. rewrite create_room_eq. simpl.
      by rewrite lookup_insert_ne.
    + destruct Hc as [Hne|[]]. unfold save_canvas.
      destruct (rooms self !! r'); [|reflexivity].
      rewrite update_room_analytics_eq. simpl. by rewrite lookup_insert_ne.
    + unfold join_room. by destruct (rooms self !! r').
    + unfold leave_room. by destruct (rooms self !! r').
    + destruct Hc as [Hne|[]]. rewrite delete_room_eq. simpl.
      by rewrite lookup_delete_ne.
Qed.

(** C1, amended, at room "Team A" right after its creation. *)
Lemma C1_get_canvas_witness :
  (get_canvas team_a team_a_id = Raise (Exception "Canvas not found")
     ↔ rooms team_a !! team_a_id = None)
  ∧ (∀ d, is_Some (rooms team_a !! team_a_id) →
       get_canvas (snd (save_canvas team_a team_a_id d)) team_a_id = Return d).
Proof.
  pose proof (C1_get_canvas default_settings team_a team_a_id reachable_team_a)
    as (H1 & _ & _ & H4 & _).
  exact (conj H1 H4).
Defined.

(** C2. After a successful [save_canvas r d] the analytics stored for [r]
    (which [get_room_analytics] returns) hold: the number of strokes of [d];
    for every colour, the number of strokes of that colour; for every shape
    kind, the number of strokes of that kind, strokes without a kind not
    being counted; and as drawing time the number of strokes times 0.1. In
    particular the three-stroke document (red, red, blue, one circle) saved
    in room "Team A" gives 3 strokes, [{red: 2, blue: 1}] and
    [{circle: 1}]. *)
Theorem C2_save_recomputes_analytics :
  (∀ self r d, is_Some (rooms self !! r) →
     ∃ a, fst (save_canvas self r d) = Return tt
        ∧ analytics (snd (save_canvas self r d)) !! r = Some a
        ∧ get_room_analytics (snd (save_canvas self r d)) r = a
        ∧ total_strokes a = len (strokes d)
        ∧ (∀ c, color_usage a !! c
                = as_count (occurrences color_key c (strokes d)))
        ∧ (∀ k, shape_count a !! k
                = as_count (occurrences shape_key k (strokes d)))
        ∧ drawing_time a
          = PrimFloat.mul (float_of_Z (len (strokes d))) 0.1%float)
  ∧ (let a := get_room_analytics
                (snd (save_canvas team_a team_a_id three_strokes)) team_a_id in
     total_strokes a = 3
     ∧ color_usage a = {[ "red" := 2; "blue" := 1 ]}
     ∧ shape_count a = {[ "circle" := 1 ]}).
Proof.
  split.
  - intros self r d Hr. rewrite save_canvas_known by assumption. simpl.
    eexists. split; [reflexivity|]. split; [apply lookup_insert_eq|].
    unfold get_room_analytics. simpl. rewrite lookup_insert_eq.
    split; [reflexivity|]. split; [reflexivity|]. simpl.
    split; [apply count_colors_lookup|].
    split; [apply count_shapes_lookup | reflexivity].
  - vm_compute. repeat split.
Qed.

(** C4. [save_canvas r d] raises "Room not found" when [r] is no room of
    the registry, and then changes nothing. When [r] is a room it returns,
    and in the state it leaves the document stored for [r] is [d] and the
    analytics stored for [r] are recomputed from [d] in the same call: the
    stroke count is the number of strokes of [d], the colour and shape
    counts are the tallies over the strokes of [d], the drawing time is the
    number of strokes times 0.1, and the active-user field and the heat map
    are those of the record the room had (of the initial record when it had
    none); the registry and the entries of the other rooms are as before. A
    call that raises, for whatever reason, leaves the whole state as it
    was. *)
Theorem C4_save_canvas_atomic self r d :
  (rooms self !! r = None →
     save_canvas self r d = (Raise (Exception "Room not found"), self))
  ∧ (is_Some (rooms self !! r) →
     ∃ self' a, save_canvas self r d = (Return tt, self')
       ∧ canvas_data self' !! r = Some d
       ∧ analytics self' !! r = Some a
       ∧ a = recompute (default initial_analytics (analytics self !! r)) d
       ∧ total_strokes a = len (strokes d)
       ∧ (∀ c, color_usage a !! c
               = as_count (occurrences color_key c (strokes d)))
       ∧ (∀ k, shape_count a !! k
               = as_count (occurrences shape_key k (strokes d)))
       ∧ drawing_time a
         = PrimFloat.mul (float_of_Z (len (strokes d))) 0.1%float
       ∧ active_users a
         = active_users (default initial_analytics (analytics self !! r))
       ∧ heatmap_data a
         = heatmap_data (default initial_analytics (analytics self !! r))
       ∧ rooms self' = rooms self
       ∧ (∀ r', r' ≠ r →
            canvas_data self' !! r' = canvas_data self !! r'
            ∧ analytics self' !! r' = analytics self !! r'))
  ∧ (∀ e self', save_canvas self r d = (Raise e, self') →
       rooms self !! r = None ∧ self' = self).
Proof.
  split; [apply save_canvas_unknown|]. split.
  - intros Hr. eexists _, _. split; [by apply save_canvas_known|]. simpl.
    split; [apply lookup_insert_eq|]. split; [apply lookup_insert_eq|].
    split; [reflexivity|]. split; [reflexivity|].
    split; [apply count_colors_lookup|]. split; [apply count_shapes_lookup|].
    split; [reflexivity|]. split; [reflexivity|]. split; [reflexivity|].
    split; [reflexivity|]. intros r' Hne.
    by rewrite !lookup_insert_ne.
  - intros e self'. destruct (rooms self !! r) as [room|] eqn:Hr.
    + rewrite save_canvas_known by eauto. discriminate.
    + rewrite save_canvas_unknown by assumption. by intros [= _ <-].
Qed.

Lemma leave_times_succ n r u self :
  leave_times (S n) r u self = snd (leave_room (leave_times n r u self) r u).
Proof. reflexivity. Qed.

Lemma member_count_leave self r u :
  member_count (snd (leave_room self r u)) r
  = (fun n => Z.max 0 (n - 1)) <$> member_count self r.
Proof.
  unfold member_count, leave_room.
  destruct (rooms self !! r) as [room|] eqn:Hr; simpl.
  - by rewrite lookup_insert_eq.
  - by rewrite Hr.
Qed.

Lemma member_count_leave_times n r u self :
  member_count (leave_times (S n) r u self) r
  = (fun c => Z.max 0 (c - Z.of_nat (S n))) <$> member_count self r.
Proof.
  induction n as [|n IH].
  - apply member_count_leave.
  - rewrite leave_times_succ, member_count_leave, IH.
    destruct (member_count self r) as [c|]; simpl; [f_equal; lia | reflexivity].
Qed.

(** C5. In every reachable state no room has a negative member count.
    [create_room] starts the count at 0; [join_room] on a room adds one and
    on an absent room raises "Room not found" and changes nothing;
    [leave_room] on a room takes one off but not below 0, and on an absent
    room returns and changes nothing; and after any number [n > 0] of
    [leave_room] calls the count is [max 0 (c - n)], so never negative. *)
Theorem C5_member_count_never_negative settings :
  (∀ self, reachable settings self →
     ∀ r c, member_count self r = Some c → 0 ≤ c)
  ∧ (∀ self room_name uuid4 now,
       member_count (snd (create_room settings self room_name uuid4 now)) uuid4
       = Some 0)
  ∧ (∀ self r u c, member_count self r = Some c →
       fst (join_room self r u) = Return tt
       ∧ member_count (snd (join_room self r u)) r = Some (c + 1))
  ∧ (∀ self r u, member_count self r = None →
       join_room self r u = (Raise (Exception "Room not found"), self))
  ∧ (∀ self r u c, member_count self r = Some c →
       fst (leave_room self r u) = Return tt
       ∧ member_count (snd (leave_room self r u)) r = Some (Z.max 0 (c - 1)))
  ∧ (∀ self r u, member_count self r = None →
       leave_room self r u = (Return tt, self))
  ∧ (∀ self r u n c, member_count self r = Some c →
       member_count (leave_times (S n) r u self) r
       = Some (Z.max 0 (c - Z.of_nat (S n)))
       ∧ ∀ c', member_count (leave_times (S n) r u self) r = Some c' → 0 ≤ c').
Proof.
  split; [|split; [|split; [|split; [|split; [|split]]]]].
  - intros self Hreach r c Hc.
    pose proof (reachable_consistent _ _ Hreach) as (_ & _ & Hau).
    unfold member_count in Hc.
    destruct (rooms self !! r) as [room|] eqn:Hr; [|discriminate].
    injection Hc as <-. by apply (Hau r).
  - intros self room_name uuid4 now. rewrite create_room_eq.
    unfold member_count. simpl. by rewrite lookup_insert_eq.
  - intros self r u c Hc. unfold member_count in *.
    destruct (rooms self !! r) as [room|] eqn:Hr; [|discriminate].
    injection Hc as <-.
    rewrite (join_room_present _ _ _ _ Hr). simpl.
    by rewrite lookup_insert_eq.
  - intros self r u Hc. apply join_room_absent. unfold member_count in Hc.
    by destruct (rooms self !! r).
  - intros self r u c Hc. split.
    + unfold member_count in Hc.
      destruct (rooms self !! r) as [room|] eqn:Hr; [|discriminate].
      by rewrite (leave_room_present _ _ _ _ Hr).
    + by rewrite member_count_leave, Hc.
  - intros self r u Hc. apply leave_room_absent. unfold member_count in Hc.
    by destruct (rooms self !! r).
  - intros self r u n c Hc. rewrite member_count_leave_times, Hc. simpl.
    split; [reflexivity|]. intros c' [= <-]. lia.
Qed.

(** C8. [delete_room r] returns without raising; afterwards none of the
    three dictionaries has an entry for [r], and the entries of the other
    rooms are as before. Deleting again changes nothing more, and in a
    reachable state deleting a room the registry does not hold leaves the
    state as it was. *)
Theorem C8_delete_room_cascades settings self r :
  fst (delete_room self r) = Return tt
  ∧ rooms (snd (delete_room self r)) !! r = None
  ∧ canvas_data (snd (delete_room self r)) !! r = None
  ∧ analytics (snd (delete_room self r)) !! r = None
  ∧ (∀ r', r' ≠ r →
       rooms (snd (delete_room self r)) !! r' = rooms self !! r'
       ∧ canvas_data (snd (delete_room self r)) !! r' = canvas_data self !! r'
       ∧ analytics (snd (delete_room self r)) !! r' = analytics self !! r')
  ∧ delete_room (snd (delete_room self r)) r
    = (Return tt, snd (delete_room self r))
  ∧ (reachable settings self → rooms self !! r = None →
       delete_room self r = (Return tt, self)).
Proof.
  rewrite !delete_room_eq. simpl.
  split; [reflexivity|]. rewrite !lookup_delete_eq.
  split; [reflexivity|]. split; [reflexivity|]. split; [reflexivity|].
  split; [|split].
  - intros r' Hne. by rewrite !lookup_delete_ne.
  - rewrite !delete_delete_eq. reflexivity.
  - intros Hreach Hr.
    destruct (consistent_fresh self r (reachable_consistent _ _ Hreach) Hr)
      as [Hc Ha].
    rewrite !delete_id by assumption. by destruct self.
Qed.

(** C9, as stated, fails: with two members in room "Team A", the analytics
    recomputed by [save_canvas] report one active user. *)
Lemma C9_active_users_not_member_count :
  member_count team_a_two_members_saved team_a_id = Some 2
  ∧ active_users <$> analytics team_a_two_members_saved !! team_a_id = Some 1
  ∧ active_users (get_room_analytics team_a_two_members_saved team_a_id) = 1.
Proof. vm_compute. repeat split. Qed.

(** C9, amended. In every reachable state the analytics stored for a room
    are a function of the document stored for it alone: the recomputation
    of that document from the initial record, whose [active_users] is the
    constant 1 and whose heat map is the empty placeholder. The registry's
    member count is not read. Only [save_canvas] and [delete_room] write the
    analytics: creating, joining and leaving leave all of them as they are. *)
Theorem C9_analytics_function_of_document settings self r a :
  reachable settings self →
  analytics self !! r = Some a →
  (∃ d, get_canvas self r = Return d
      ∧ a = recompute initial_analytics d
      ∧ total_strokes a = len (strokes d)
      ∧ color_usage a = count_colors (strokes d)
      ∧ shape_count a = count_shapes (strokes d))
  ∧ active_users a = 1
  ∧ heatmap_data a = {| hm_width := 1920; hm_height := 1080; hm_data := [] |}
  ∧ (∀ c, counts_members c ∨ (∃ n u t, c = CreateRoom n u t) →
       analytics (run settings self c) = analytics self).
Proof.
  intros Hreach Ha.
  pose proof (reachable_consistent _ _ Hreach) as (_ & Han & _).
  destruct (Han r a Ha) as (d & Hd & ->).
  split; [|split; [reflexivity | split; [reflexivity|]]].
  - exists d. unfold get_canvas. rewrite Hd. repeat split.
  - intros c [Hc | (n & u & t & ->)].
    + destruct c as [| |r' u'|r' u'|]; try contradiction; unfold run.
      * unfold join_room. by destruct (rooms self !! r').
      * unfold leave_room. by destruct (rooms self !! r').
    + reflexivity.
Qed.

(** C9, amended, at room "Team A" with two members and a saved document. *)
Lemma C9_analytics_function_of_document_witness :
  ∃ a, analytics team_a_two_members_saved !! team_a_id = Some a
     ∧ a = recompute initial_analytics three_strokes
     ∧ active_users a = 1.
Proof.
  exists (recompute initial_analytics three_strokes).
  assert (Ha : analytics team_a_two_members_saved !! team_a_id
               = Some (recompute initial_analytics three_strokes))
    by reflexivity.
  destruct (C9_analytics_function_of_document default_settings
              team_a_two_members_saved team_a_id _
              reachable_team_a_two_members_saved Ha) as (_ & Hau & _).
  split; [exact Ha | split; [reflexivity | exact Hau]].
Defined.

(** C10. [join_room] and [leave_room] do not read the member identifier:
    with any two identifiers they return the same outcome and leave the same
    state. Membership is a counter: the same identifier joining twice adds
    two, and one leave afterwards takes one off whoever is named. *)
Theorem C10_member_id_ignored self r m1 m2 :
  join_room self r m1 = join_room self r m2
  ∧ leave_room self r m1 = leave_room self r m2
  ∧ (∀ c, member_count self r = Some c →
       member_count (snd (join_room (snd (join_room self r m1)) r m1)) r
       = Some (c + 2)
       ∧ member_count
           (snd (leave_room (snd (join_room (snd (join_room self r m1)) r m1))
                   r m2)) r
         = Some (Z.max 0 (c + 2 - 1))).
Proof.
  split; [reflexivity|]. split; [reflexivity|].
  intros c Hc. unfold member_count in Hc.
  destruct (rooms self !! r) as [room|] eqn:Hr; [|discriminate].
  injection Hc as <-.
  assert (Htwice :
    member_count (snd (join_room (snd (join_room self r m1)) r m1)) r
    = Some (Room.active_users room + 2)).
  { rewrite (join_room_present _ _ _ _ Hr). simpl.
    erewrite join_room_present by (simpl; apply lookup_insert_eq).
    unfold member_count. simpl. rewrite lookup_insert_eq. simpl.
    f_equal. lia. }
  split; [exact Htwice|].
  by rewrite member_count_leave, Htwice.
Qed.

(** ** The session "Team A", call by call *)

Example save_in_unknown_room :
  save_canvas team_a "no-such-room" three_strokes
  = (Raise (Exception "Room not found"), team_a).
Proof. reflexivity. Qed.

Example join_unknown_room :
  join_room team_a "no-such-room" "alice"
  = (Raise (Exception "Room not found"), team_a).
Proof. reflexivity. Qed.

Example same_member_joins_twice :
  member_count
    (snd (join_room (snd (join_room team_a team_a_id "alice")) team_a_id "alice"))
    team_a_id
  = Some 2.
Proof. reflexivity. Qed.

Example leave_at_the_floor :
  member_count (snd (join_room team_a team_a_id "alice")) team_a_id = Some 1
  ∧ member_count
      (leave_times 3 team_a_id "alice" (snd (join_room team_a team_a_id "alice")))
      team_a_id
    = Some 0.
Proof. split; reflexivity. Qed.

Example delete_removes_everything :
  delete_room team_a_two_members_saved team_a_id = (Return tt, init).
Proof. vm_compute. reflexivity. Qed.

Example drawing_time_of_three_strokes :
  drawing_time (get_room_analytics team_a_two_members_saved team_a_id)
  = 0.30000000000000004%float.
Proof. vm_compute. reflexivity. Qed.

Example analytics_before_any_save :
  get_room_analytics team_a team_a_id = mock_analytics.
Proof. reflexivity. Qed.

(** ** The shape classifier *)

Section Classifier.

Context `{Imaging}.

Lemma circularity_of_defined area perimeter :
  PrimFloat.ltb 0 perimeter = true →
  PrimFloat.eqb (PrimFloat.mul perimeter perimeter) 0 = false →
  circularity_of area perimeter
  = Return (PrimFloat.div (PrimFloat.mul (PrimFloat.mul 4 pi) area)
                          (PrimFloat.mul perimeter perimeter)).
Proof.
  intros Hpos Hsq. unfold circularity_of, truediv. by rewrite Hpos, Hsq.
Qed.

Lemma circularity_of_flat area perimeter :
  PrimFloat.ltb 0 perimeter = false → circularity_of area perimeter = Return 0%float.
Proof. intros Hpos. unfold circularity_of. by rewrite Hpos. Qed.

(** C3. [_classify_shape] on a contour [c]:
    - three vertices: triangle, confidence 0.9;
    - four vertices, the bounding box having a height that is not 0: with
      the aspect ratio [float(w) / h] in [0.8, 1.2] square, confidence 0.85,
      and otherwise rectangle, confidence 0.8;
    - more than eight vertices, with a positive perimeter whose square is
      not 0: the circularity being
      [circ = 4 * pi * area / (perimeter * perimeter)], with [circ > 0.8]
      circle, confidence [circ], and otherwise unknown, confidence 0.5;
      with a perimeter that is not positive: unknown, confidence 0.5;
    - any other number of vertices: unknown, confidence 0.5.
    Every result carries the number of vertices and the contour's area. *)
Theorem C3_classify_shape (c : contour) :
  (len c = 3 →
     _classify_shape c
     = Return {| type := "triangle"; confidence := 0.9;
                 vertices := 3; area := contourArea c |})
  ∧ (len c = 4 → ∀ x y w h, boundingRect c = (x, y, w, h) → h ≠ 0 →
       let aspect_ratio := PrimFloat.div (float_of_Z w) (float_of_Z h) in
       (PrimFloat.leb 0.8 aspect_ratio && PrimFloat.leb aspect_ratio 1.2 = true →
          _classify_shape c
          = Return {| type := "square"; confidence := 0.85;
                      vertices := 4; area := contourArea c |})
       ∧ (PrimFloat.leb 0.8 aspect_ratio && PrimFloat.leb aspect_ratio 1.2 = false →
          _classify_shape c
          = Return {| type := "rectangle"; confidence := 0.8;
                      vertices := 4; area := contourArea c |}))
  ∧ (8 < len c →
       let area := contourArea c in
       let perimeter := arcLength c true in
       (PrimFloat.ltb 0 perimeter = true →
        PrimFloat.eqb (PrimFloat.mul perimeter perimeter) 0 = false →
        let circ :=
          PrimFloat.div (PrimFloat.mul (PrimFloat.mul 4 pi) area)
                        (PrimFloat.mul perimeter perimeter) in
        (PrimFloat.ltb 0.8 circ = true →
           _classify_shape c
           = Return {| type := "circle"; confidence := circ;
                       vertices := len c; area := area |})
        ∧ (PrimFloat.ltb 0.8 circ = false →
           _classify_shape c
           = Return {| type := "unknown"; confidence := 0.5;
                       vertices := len c; area := area |}))
       ∧ (PrimFloat.ltb 0 perimeter = false →
          _classify_shape c
          = Return {| type := "unknown"; confidence := 0.5;
                      vertices := len c; area := area |}))
  ∧ (len c ≠ 3 → len c ≠ 4 → len c ≤ 8 →
       _classify_shape c
       = Return {| type := "unknown"; confidence := 0.5;
                   vertices := len c; area := contourArea c |}).
Proof.
  unfold _classify_shape. split; [|split; [|split]].
  - intros ->. reflexivity.
  - intros -> x y w h Hrect Hh. simpl. rewrite Hrect.
    unfold truediv_float_int.
    destruct (Z.eqb_spec h 0) as [|_]; [contradiction|]. simpl.
    split; intros ->; reflexivity.
  - cbv zeta. intros Hlen.
    destruct (Z.eqb_spec (len c) 3) as [|_]; [lia|].
    destruct (Z.eqb_spec (len c) 4) as [|_]; [lia|].
    destruct (Z.gtb_spec (len c) 8) as [_|]; [|lia].
    split.
    + intros Hpos Hsq.
      rewrite (circularity_of_defined _ _ Hpos Hsq).
      simpl. split; intros ->; reflexivity.
    + intros Hflat. rewrite (circularity_of_flat _ _ Hflat). reflexivity.
  - intros H3 H4 H8.
    destruct (Z.eqb_spec (len c) 3) as [|_]; [contradiction|].
    destruct (Z.eqb_spec (len c) 4) as [|_]; [contradiction|].
    destruct (Z.gtb_spec (len c) 8) as [|_]; [lia|].
    reflexivity.
Qed.

(** The confidence of a classified shape whose kind is fixed by the number
    of vertices alone. *)
Lemma classify_shape_confidence c info :
  _classify_shape c = Return info →
  (type info = "triangle" → confidence info = 0.9%float)
  ∧ (type info = "square" → confidence info = 0.85%float)
  ∧ (type info = "rectangle" → confidence info = 0.8%float)
  ∧ (type info = "unknown" → confidence info = 0.5%float)
  ∧ (type info = "circle" → PrimFloat.ltb 0.8 (confidence info) = true).
Proof.
  unfold _classify_shape.
  destruct (len c =? 3); [intros [= <-]; by repeat split|].
  destruct (len c =? 4).
  { destruct (boundingRect c) as [[[x y] w] h].
    destruct (truediv_float_int (float_of_Z w) h) as [ar|e]; simpl; [|discriminate].
    destruct (_ && _); intros [= <-]; by repeat split. }
  destruct (len c >? 8); [|intros [= <-]; by repeat split].
  destruct (circularity_of _ _) as [circ|e]; simpl; [|discriminate].
  destruct (PrimFloat.ltb 0.8 circ) eqn:Hc; intros [= <-]; by repeat split.
Qed.

End Classifier.

(** The cases of the classifier on the sample contours. *)
Example classify_samples :
  classify_sample
    <$> [triangle_contour; square_contour; wide_contour;
         pentagon_contour; round_contour; sliver_contour]
  = [Some ("triangle", 0.9%float); Some ("square", 0.85%float);
     Some ("rectangle", 0.8%float); Some ("unknown", 0.5%float);
     Some ("circle", 0.97701792027584355%float); Some ("unknown", 0.5%float)].
Proof. vm_compute. reflexivity. Qed.

(** ** Shape detection: which shapes are retained *)

Section Detection.

Context `{Imaging}.

Lemma collect_shapes_filter thr contours : ∀ infos acc,
  Forall2 (fun c info => classified c = Return info) contours infos →
  collect_shapes thr contours acc = Return (acc ++ filter (meets thr) infos).
Proof.
  induction contours as [|c contours IH]; intros infos acc Hall.
  - apply Forall2_nil_inv_l in Hall as ->. simpl. by rewrite app_nil_r.
  - apply Forall2_cons_inv_l in Hall as (info & infos' & Hc & Hall & ->).
    cbn [collect_shapes]. unfold classified in Hc. rewrite Hc.
    cbn [mbind outcome_bind]. rewrite filter_cons.
    destruct (decide (meets thr info)) as [Hm|Hm]; unfold meets in Hm.
    + rewrite Hm, (IH infos' _ Hall), <- app_assoc. reflexivity.
    + apply not_true_is_false in Hm. rewrite Hm. by apply IH.
Qed.

Lemma mean_confidence_eq shapes :
  mean_confidence shapes = Return (mean_of_floats (confidence <$> shapes)).
Proof.
  destruct shapes as [|s shapes]; [reflexivity|].
  unfold mean_confidence, truediv_float_int, mean_of_floats, len.
  rewrite length_fmap. reflexivity.
Qed.

(** At the service, the threshold passed in decides: when every contour of
    the image classifies, [detect_shapes] returns exactly the classified
    shapes whose confidence is at least the threshold, in order, with the
    mean of their confidences (0 for none). *)
Lemma detect_shapes_retains image_data thr start_time end_time contours infos :
  find_contours (second_field_or_all image_data) = Return contours →
  Forall2 (fun c info => classified c = Return info) contours infos →
  AIService.detect_shapes image_data thr start_time end_time
  = Return {| shapes := filter (meets thr) infos;
              sdr_confidence :=
                mean_of_floats (confidence <$> filter (meets thr) infos);
              sdr_processing_time := PrimFloat.sub end_time start_time |}.
Proof.
  intros Hfind Hall. unfold AIService.detect_shapes. rewrite Hfind.
  cbn [mbind outcome_bind].
  rewrite (collect_shapes_filter thr contours infos [] Hall). simpl.
  rewrite mean_confidence_eq. reflexivity.
Qed.

(** The endpoint returns what the service returns under the default
    threshold 0.7, whatever threshold the request carries. *)
Lemma route_detect_shapes_default request start_time end_time contours infos :
  find_contours (second_field_or_all (sd_image_data request)) = Return contours →
  Forall2 (fun c info => classified c = Return info) contours infos →
  Routes.detect_shapes request start_time end_time
  = Routes.Ok
      {| shapes := filter (meets 0.7) infos;
         sdr_confidence :=
           mean_of_floats (confidence <$> filter (meets 0.7) infos);
         sdr_processing_time := PrimFloat.sub end_time start_time |}.
Proof.
  intros Hfind Hall. unfold Routes.detect_shapes.
  by rewrite (detect_shapes_retains _ _ _ _ _ _ Hfind Hall).
Qed.

End Detection.

(** C6 fails at the endpoint. The request asks for the shapes of confidence
    0.5 or more; the picture has one contour, a pentagon, which classifies
    as unknown with confidence 0.5, and 0.5 >= 0.5. The service called with
    the request's threshold retains it; the endpoint, which never passes
    the request's threshold on, filters at the default 0.7 and returns no
    shape, with aggregate confidence 0. *)
Lemma C6_route_ignores_request_threshold :
  let _ := sample_imaging in
  classified pentagon_contour
  = Return {| type := "unknown"; confidence := 0.5;
              vertices := 5; area := 1036 |}
  ∧ PrimFloat.leb (sd_confidence_threshold pentagon_request) 0.5 = true
  ∧ AIService.detect_shapes (sd_image_data pentagon_request)
      (sd_confidence_threshold pentagon_request) 100 101.5
    = Return {| shapes := [ {| type := "unknown"; confidence := 0.5;
                               vertices := 5; area := 1036 |} ];
                sdr_confidence := 0.5;
                sdr_processing_time := 1.5 |}
  ∧ Routes.detect_shapes pentagon_request 100 101.5
    = Routes.Ok {| shapes := []; sdr_confidence := 0;
                   sdr_processing_time := 1.5 |}.
Proof. vm_compute. repeat split. Qed.

(** ** Text extraction: which fragments are kept *)

Section TextExtraction.

Context `{Imaging}.

Lemma fragment_box_at data i c :
  rectangular data → conf data !! i = Some c →
  ∃ b, fragment data i = Some b ∧ box_at data i c = Return b
       ∧ bb_confidence b = c.
Proof.
  intros (Ht & Hl & Htop & Hw & Hh) Hc.
  pose proof (lookup_lt_Some _ _ _ Hc) as Hi.
  destruct (lookup_lt_is_Some_2 (data_text data) i) as [t Hti]; [lia|].
  destruct (lookup_lt_is_Some_2 (left data) i) as [x Hxi]; [lia|].
  destruct (lookup_lt_is_Some_2 (top data) i) as [y Hyi]; [lia|].
  destruct (lookup_lt_is_Some_2 (data_width data) i) as [w Hwi]; [lia|].
  destruct (lookup_lt_is_Some_2 (data_height data) i) as [h Hhi]; [lia|].
  unfold fragment, box_at, index.
  rewrite Hc, Hti, Hxi, Hyi, Hwi, Hhi. simpl. eauto.
Qed.

Lemma collect_boxes_filter data : rectangular data → ∀ confs i acc,
  (∀ k c, confs !! k = Some c → conf data !! (i + k)%nat = Some c) →
  collect_boxes data i confs acc
  = Return (acc ++ filter above_cutoff
                     (omap (fragment data) (seq i (length confs)))).
Proof.
  intros Hrect. induction confs as [|c confs IH]; intros i acc Hconfs.
  - simpl. by rewrite app_nil_r.
  - assert (Hi : conf data !! i = Some c).
    { specialize (Hconfs 0%nat c eq_refl). by rewrite Nat.add_0_r in Hconfs. }
    assert (Hrest : ∀ k c', confs !! k = Some c' →
                            conf data !! (S i + k)%nat = Some c').
    { intros k c' Hk. specialize (Hconfs (S k) c' Hk).
      by replace (S i + k)%nat with (i + S k)%nat by lia. }
    destruct (fragment_box_at data i c Hrect Hi) as (b & Hfrag & Hbox & Hbc).
    cbn -[box_at fragment filter]. rewrite Hfrag, filter_cons.
    destruct (Z.gtb_spec c 60) as [Hgt|Hle].
    + rewrite Hbox. cbn [mbind outcome_bind].
      rewrite (IH (S i) _ Hrest), <- app_assoc.
      rewrite decide_True by (unfold above_cutoff; lia). reflexivity.
    + rewrite (IH (S i) _ Hrest).
      rewrite decide_False by (unfold above_cutoff; lia). reflexivity.
Qed.

Lemma mean_box_confidence_eq boxes :
  mean_box_confidence boxes = Return (mean_of_ints (bb_confidence <$> boxes)).
Proof.
  destruct boxes as [|b boxes]; [reflexivity|].
  unfold mean_box_confidence, truediv_int, mean_of_ints, len.
  rewrite length_fmap. reflexivity.
Qed.

Lemma fragments_lookup data b :
  b ∈ fragments data ↔ ∃ i, fragment data i = Some b.
Proof.
  unfold fragments. rewrite list_elem_of_omap. split.
  - intros (i & _ & Hb). eauto.
  - intros (i & Hb). exists i. split; [|exact Hb].
    apply elem_of_seq. split; [lia|]. simpl.
    unfold fragment in Hb. destruct (conf data !! i) as [c|] eqn:Hc; [|discriminate].
    by apply lookup_lt_Some in Hc.
Qed.

(** C7. When Tesseract returns the text and a rectangular table for the
    image, [perform_ocr] returns; its bounding boxes are the fragments of
    the table whose confidence is above 60, in order, so a fragment is in
    the list exactly when its confidence is above 60; the aggregate
    confidence is the mean of the confidences in the list, and 0 for an
    empty list. The endpoint, which calls the service with the default
    language, answers every request for that image with this very result,
    whatever [confidence_threshold] (and language) the request carries: the
    service has no threshold parameter, and the endpoint reads nothing of
    the request but the image, so two requests for the same image get the
    same answer. *)
Theorem C7_ocr_fixed_cutoff image_data language start_time end_time text data :
  tesseract (second_field_or_all image_data) language = Return (text, data) →
  rectangular data →
  (∃ result,
     perform_ocr image_data language start_time end_time = Return result
     ∧ bounding_boxes result = filter above_cutoff (fragments data)
     ∧ (∀ b, b ∈ fragments data →
          (b ∈ bounding_boxes result ↔ 60 < bb_confidence b))
     ∧ (∀ b, b ∈ bounding_boxes result → b ∈ fragments data)
     ∧ ocr_confidence result
       = mean_of_ints (bb_confidence <$> bounding_boxes result)
     ∧ (language = default_language →
        ∀ request : OCRRequest, ocr_image_data request = image_data →
          Routes.perform_ocr request start_time end_time = Routes.Ok result))
  ∧ (∀ request request' : OCRRequest,
       ocr_image_data request = ocr_image_data request' →
       Routes.perform_ocr request start_time end_time
       = Routes.perform_ocr request' start_time end_time).
Proof.
  intros Htess Hrect. split.
  - assert (Hrun : perform_ocr image_data language start_time end_time
      = Return {| text := strip text;
                  ocr_confidence :=
                    mean_of_ints
                      (bb_confidence <$> filter above_cutoff (fragments data));
                  bounding_boxes := filter above_cutoff (fragments data);
                  ocr_processing_time := PrimFloat.sub end_time start_time |}).
    { unfold perform_ocr. rewrite Htess. cbn [mbind outcome_bind].
      rewrite (collect_boxes_filter data Hrect (conf data) 0 []); simpl.
      2: { intros k c Hk. exact Hk. }
      rewrite mean_box_confidence_eq. reflexivity. }
    eexists. split; [exact Hrun|]. simpl.
    split; [reflexivity|]. split; [|split; [|split]].
    + intros b Hb. rewrite list_elem_of_filter. unfold above_cutoff. tauto.
    + intros b Hb. by apply list_elem_of_filter in Hb as [_ Hb].
    + reflexivity.
    + intros -> request <-. unfold Routes.perform_ocr. by rewrite Hrun.
  - intros request request' Himg. unfold Routes.perform_ocr. by rewrite Himg.
Qed.

End TextExtraction.

(** C7 on the sample table: of its five rows those of confidence 95 and 61
    are kept, the row of confidence exactly 60 is not, and the mean is 78;
    the endpoint answers a request of threshold 0.99 with that result. *)
Lemma C7_ocr_fixed_cutoff_witness :
  rectangular sample_table
  ∧ (∃ result,
       @perform_ocr sample_imaging "note" "eng" 100 101.5 = Return result
       ∧ bounding_boxes result = filter above_cutoff (fragments sample_table)
       ∧ (bb_text <$> bounding_boxes result) = ["Team"; "plan"]
       ∧ ocr_confidence result = 78%float
       ∧ @Routes.perform_ocr sample_imaging (note_request 0.99) 100 101.5
         = Routes.Ok result)
  ∧ @Routes.perform_ocr sample_imaging (note_request 0.6) 100 101.5
    = @Routes.perform_ocr sample_imaging (note_request 0.99) 100 101.5.
Proof.
  assert (Hrect : rectangular sample_table) by (repeat split).
  destruct (@C7_ocr_fixed_cutoff sample_imaging "note" "eng" 100 101.5
              _ sample_table eq_refl Hrect)
    as [(result & Hrun & Hboxes & _ & _ & Hmean & Hanswer) Hroute].
  split; [exact Hrect|]. split.
  - exists result. split; [exact Hrun|]. split; [exact Hboxes|].
    rewrite Hmean, Hboxes.
    split; [vm_compute; reflexivity|]. split; [vm_compute; reflexivity|].
    apply Hanswer; reflexivity.
  - apply Hroute. reflexivity.
Defined.

(** * Further properties of the canvas service *)

(** X1. Saving is last-writer-wins: a save after another save of the same
    room gives the outcome and the state of the second save alone. Saving
    the same document twice is therefore the same as saving it once. *)
Theorem save_canvas_last_writer_wins self r d1 d2 :
  save_canvas (snd (save_canvas self r d1)) r d2 = save_canvas self r d2
  ∧ save_canvas (snd (save_canvas self r d2)) r d2 = save_canvas self r d2.
Proof.
  assert (Hlww : ∀ d d',
    save_canvas (snd (save_canvas self r d)) r d' = save_canvas self r d').
  { intros d d'. destruct (rooms self !! r) as [room|] eqn:Hr.
    - rewrite (save_canvas_known self r d) by eauto. simpl.
      rewrite !save_canvas_known by (simpl; eauto). simpl.
      rewrite lookup_insert_eq, !insert_insert_eq. reflexivity.
    - rewrite (save_canvas_unknown self r d) by assumption. reflexivity. }
  split; apply Hlww.
Qed.

(** A call changes the entries of the room it addresses only. *)
Lemma run_other_room settings self c r :
  target c ≠ r → entries (run settings self c) r = entries self r.
Proof.
  intros Hne. unfold entries.
  destruct c as [n u t|r' d|r' u|r' u|r']; unfold run; cbn [target] in Hne.
  - rewrite create_room_eq. simpl. by rewrite !lookup_insert_ne.
  - destruct (rooms self !! r') as [room|] eqn:Hr.
    + rewrite save_canvas_known by eauto. simpl. by rewrite !lookup_insert_ne.
    + by rewrite save_canvas_unknown.
  - destruct (rooms self !! r') as [room|] eqn:Hr.
    + rewrite (join_room_present _ _ _ _ Hr). simpl. by rewrite lookup_insert_ne.
    + by rewrite join_room_absent.
  - destruct (rooms self !! r') as [room|] eqn:Hr.
    + rewrite (leave_room_present _ _ _ _ Hr). simpl. by rewrite lookup_insert_ne.
    + by rewrite leave_room_absent.
  - rewrite delete_room_eq. simpl. by rewrite !lookup_delete_ne.
Qed.

Lemma run_all_other_room settings cs : ∀ self r,
  Forall (fun c => target c ≠ r) cs →
  entries (run_all settings self cs) r = entries self r.
Proof.
  induction cs as [|c cs IH]; intros self r Hall; [reflexivity|].
  apply Forall_cons in Hall as [Hc Hcs].
  unfold run_all. simpl. fold (run_all settings (run settings self c) cs).
  rewrite (IH _ _ Hcs). by apply run_other_room.
Qed.

(** X2. Rooms are isolated: a sequence of calls none of which addresses room
    [r] leaves the registry record, the document and the analytics of [r]
    as they were. *)
Theorem calls_on_other_rooms_keep_entries settings cs self r :
  Forall (fun c => target c ≠ r) cs →
  entries (run_all settings self cs) r = entries self r.
Proof.
  revert self. induction cs as [|c cs IH]; intros self Hall; [reflexivity|].
  apply Forall_cons in Hall as [Hc Hcs].
  change (run_all settings self (c :: cs))
    with (run_all settings (run settings self c) cs).
  rewrite (IH _ Hcs). by apply run_other_room.
Qed.

Lemma calls_on_other_rooms_keep_entries_witness :
  entries
    (run_all default_settings team_a
       [CreateRoom "Team B" "room-b" "2024-05-01T10:00:00";
        JoinRoom "room-b" "carol";
        SaveCanvas "room-b" three_strokes;
        DeleteRoom "room-b"])
    team_a_id
  = entries team_a team_a_id.
Proof.
  apply (calls_on_other_rooms_keep_entries default_settings
           [CreateRoom "Team B" "room-b" "2024-05-01T10:00:00";
            JoinRoom "room-b" "carol";
            SaveCanvas "room-b" three_strokes;
            DeleteRoom "room-b"] team_a team_a_id).
  repeat constructor; discriminate.
Defined.

Lemma run_all_app settings self cs cs' :
  run_all settings self (cs ++ cs') = run_all settings (run_all settings self cs) cs'.
Proof. unfold run_all. apply fold_left_app. Qed.

Lemma delete_room_forgets self self' r :
  (∀ r', r' ≠ r → entries self' r' = entries self r') →
  entries self r = (None, None, None) →
  snd (delete_room self' r) = self.
Proof.
  intros Hother Hfresh. rewrite delete_room_eq. simpl.
  injection Hfresh as Hr Hc Ha.
  destruct self as [rs cs an]. simpl in *. f_equal; apply map_eq; intros r'.
  all: destruct (decide (r' = r)) as [->|Hne];
    [by rewrite lookup_delete_eq
    |rewrite lookup_delete_ne by congruence;
     specialize (Hother r' Hne); by injection Hother].
Qed.

(** X3. A room's whole life leaves no trace. From a state that holds
    nothing under [r], any sequence of calls that all address [r] (creating
    it, saving, joining, leaving, in any order and number) followed by
    [delete_room r] gives back exactly the state before. *)
Theorem delete_room_undoes_room_life settings cs self r :
  entries self r = (None, None, None) →
  Forall (fun c => target c = r) cs →
  run_all settings self (cs ++ [DeleteRoom r]) = self.
Proof.
  intros Hfresh Hall. rewrite run_all_app.
  change (run_all settings ?s [DeleteRoom r]) with (snd (delete_room s r)).
  apply delete_room_forgets; [|exact Hfresh].
  intros r' Hne. apply run_all_other_room.
  eapply Forall_impl; [exact Hall|]. simpl. intros c ->. congruence.
Qed.

Lemma delete_room_undoes_room_life_witness :
  run_all default_settings init
    [CreateRoom "Team A" team_a_id "2024-05-01T09:00:00";
     JoinRoom team_a_id "alice";
     SaveCanvas team_a_id three_strokes;
     LeaveRoom team_a_id "alice";
     DeleteRoom team_a_id]
  = init.
Proof.
  apply (delete_room_undoes_room_life default_settings
           [CreateRoom "Team A" team_a_id "2024-05-01T09:00:00";
            JoinRoom team_a_id "alice";
            SaveCanvas team_a_id three_strokes;
            LeaveRoom team_a_id "alice"] init team_a_id).
  - reflexivity.
  - repeat constructor.
Defined.

(** X4. Joining and then leaving is a round trip: in a reachable state, for
    a room of the registry, [join_room] followed by [leave_room] (whoever is
    named in either) gives back exactly the state before. *)
Theorem join_then_leave_restores settings self r u v :
  reachable settings self → is_Some (rooms self !! r) →
  leave_room (snd (join_room self r u)) r v = (Return tt, self).
Proof.
  intros Hreach [room Hr].
  pose proof (reachable_consistent _ _ Hreach) as (_ & _ & Hau).
  specialize (Hau r room Hr).
  rewrite (join_room_present _ _ _ _ Hr). simpl.
  erewrite leave_room_present by (simpl; apply lookup_insert_eq).
  f_equal. unfold set_rooms. simpl. rewrite insert_insert_eq.
  destruct self as [rs cs an]. simpl in *. f_equal.
  apply insert_id. rewrite Hr. f_equal.
  destruct room as [i n t a w h]. unfold Room.set_active_users. simpl in *.
  f_equal. lia.
Qed.

Lemma join_then_leave_restores_witness :
  leave_room (snd (join_room team_a team_a_id "alice")) team_a_id "bob"
  = (Return tt, team_a).
Proof.
  apply (join_then_leave_restores default_settings team_a team_a_id "alice" "bob").
  - exact reachable_team_a.
  - by eexists.
Defined.

(** ** What the analytics add up to *)

Lemma total_empty : total ∅ = 0.
Proof. apply map_fold_empty. Qed.

Lemma total_insert_fresh (d : gmap string Z) k n :
  d !! k = None → total (<[k := n]> d) = n + total d.
Proof.
  intros Hk. unfold total.
  apply (map_fold_insert_L (fun _ n acc => n + acc)); [|exact Hk].
  intros. lia.
Qed.

Lemma total_bump k (d : gmap string Z) : total (bump k d) = total d + 1.
Proof.
  unfold bump. destruct (d !! k) as [n|] eqn:Hk; simpl.
  - assert (Hd : total d = n + total (delete k d)).
    { rewrite <- (total_insert_fresh (delete k d) k n) by apply lookup_delete_eq.
      by rewrite insert_delete_id. }
    assert (Hi : total (<[k := n + 1]> d) = n + 1 + total (delete k d)).
    { rewrite <- (total_insert_fresh (delete k d) k (n + 1))
        by apply lookup_delete_eq.
      by rewrite insert_delete_eq. }
    lia.
  - rewrite total_insert_fresh by exact Hk. lia.
Qed.

Lemma total_tally key ss : ∀ d,
  total (tally key ss d)
  = total d + len (filter (fun s => is_Some (key s)) ss).
Proof.
  unfold len. induction ss as [|s ss IH]; intros d.
  - simpl. lia.
  - change (tally key (s :: ss) d)
      with (tally key ss (match key s with Some k => bump k d | None => d end)).
    rewrite IH, filter_cons.
    destruct (key s) as [k|] eqn:Hk.
    + rewrite decide_True by eauto. rewrite total_bump. simpl. lia.
    + rewrite decide_False by (by intros [? ?]). reflexivity.
Qed.

Lemma filter_all {A : Type} (P : A → Prop) `{!∀ x, Decision (P x)} (l : list A) :
  (∀ x, P x) → filter P l = l.
Proof.
  intros HP. induction l as [|x l IH]; [reflexivity|].
  rewrite filter_cons_True by apply HP. by rewrite IH.
Qed.

(** X5. The partition property of the analytics. After a successful save
    the colour counts add up to the number of strokes, and the shape counts
    add up to the number of strokes that have a shape kind, which is at
    most the number of strokes. *)
Theorem analytics_counts_add_up self r d :
  is_Some (rooms self !! r) →
  let a := get_room_analytics (snd (save_canvas self r d)) r in
  total (color_usage a) = total_strokes a
  ∧ total (shape_count a)
    = len (filter (fun s => is_Some (shape_type s)) (strokes d))
  ∧ 0 ≤ total (shape_count a) ≤ total_strokes a.
Proof.
  intros Hr. rewrite save_canvas_known by assumption.
  unfold get_room_analytics. simpl. rewrite lookup_insert_eq. simpl.
  rewrite count_colors_tally, count_shapes_tally, !total_tally, total_empty.
  assert (Hall : filter (fun s => is_Some (color_key s)) (strokes d) = strokes d).
  { apply filter_all. intros s. unfold color_key. eauto. }
  assert (Hsome : filter (fun s => is_Some (shape_key s)) (strokes d)
                  = filter (fun s => is_Some (shape_type s)) (strokes d)).
  { apply list_filter_iff. intros s. unfold shape_key.
    by rewrite fmap_is_Some. }
  rewrite Hall, Hsome. split; [simpl; lia|]. split; [simpl; lia|].
  pose proof (length_filter (fun s => is_Some (shape_type s)) (strokes d)).
  unfold len. simpl. lia.
Qed.

Lemma analytics_counts_add_up_witness :
  let a := get_room_analytics
             (snd (save_canvas team_a team_a_id three_strokes)) team_a_id in
  total (color_usage a) = 3 ∧ total (shape_count a) = 1.
Proof.
  destruct (analytics_counts_add_up team_a team_a_id three_strokes)
    as (Hc & Hs & _); [by eexists|].
  split; [exact Hc | exact Hs].
Defined.

Lemma as_count_is_Some n : 0 ≤ n → (is_Some (as_count n) ↔ 0 < n).
Proof.
  intros Hn. unfold as_count. destruct (decide (n = 0)) as [->|Hne].
  - split; [by intros [? ?] | lia].
  - split; [lia | eauto].
Qed.

Lemma occurrences_pos key k ss :
  0 < occurrences key k ss ↔ ∃ s, s ∈ ss ∧ key s = Some k.
Proof.
  unfold occurrences, len. split.
  - intros Hpos.
    destruct (filter (fun s => key s = Some k) ss) as [|s l] eqn:Hf;
      [simpl in Hpos; lia|].
    assert (Hs : s ∈ filter (fun s => key s = Some k) ss)
      by (rewrite Hf; apply list_elem_of_here).
    apply list_elem_of_filter in Hs as [Hk Hs]. eauto.
  - intros (s & Hs & Hk).
    assert (Hin : s ∈ filter (fun s => key s = Some k) ss)
      by (by apply list_elem_of_filter).
    destruct (filter (fun s => key s = Some k) ss); [by inversion Hin|].
    simpl. lia.
Qed.

Lemma occurrences_le key k ss : occurrences key k ss ≤ len ss.
Proof.
  unfold occurrences, len.
  pose proof (length_filter (fun s => key s = Some k) ss). lia.
Qed.

(** X6. The keys of the analytics are what the document uses. After a
    successful save, a colour is a key of [color_usage] exactly when some
    stroke has that colour, and a string is a key of [shape_count] exactly
    when some stroke has a shape kind of that name (so it is one of the five
    kind names); every count stored is at least 1 and at most the number of
    strokes. *)
Theorem analytics_keys_are_what_is_used self r d :
  is_Some (rooms self !! r) →
  let a := get_room_analytics (snd (save_canvas self r d)) r in
  (∀ c, is_Some (color_usage a !! c) ↔ ∃ s, s ∈ strokes d ∧ color s = c)
  ∧ (∀ k, is_Some (shape_count a !! k)
          ↔ ∃ s st, s ∈ strokes d ∧ shape_type s = Some st ∧ value st = k)
  ∧ (∀ k, is_Some (shape_count a !! k) →
          k ∈ ["rectangle"; "circle"; "triangle"; "line"; "arrow"])
  ∧ (∀ k n, color_usage a !! k = Some n ∨ shape_count a !! k = Some n →
            1 ≤ n ≤ total_strokes a).
Proof.
  intros Hr. rewrite save_canvas_known by assumption.
  unfold get_room_analytics. simpl. rewrite lookup_insert_eq. simpl.
  assert (Hshape : ∀ k, is_Some (count_shapes (strokes d) !! k)
     ↔ ∃ s st, s ∈ strokes d ∧ shape_type s = Some st ∧ value st = k).
  { intros k. rewrite count_shapes_lookup,
      (as_count_is_Some _ (occurrences_nonneg _ _ _)), occurrences_pos.
    unfold shape_key. split.
    - intros (s & Hs & Hk). destruct (shape_type s) as [st|] eqn:Hst;
        [|discriminate]. injection Hk as <-. eauto.
    - intros (s & st & Hs & Hst & <-). exists s. by rewrite Hst. }
  split; [|split; [exact Hshape|split]].
  - intros c. rewrite count_colors_lookup,
      (as_count_is_Some _ (occurrences_nonneg _ _ _)), occurrences_pos.
    unfold color_key. split; intros (s & Hs & Hc); exists s;
      (split; [exact Hs | congruence]).
  - intros k Hk. apply Hshape in Hk as (s & st & _ & _ & <-).
    destruct st; simpl; repeat constructor.
  - intros k n. rewrite count_colors_lookup, count_shapes_lookup.
    unfold as_count.
    intros [Hn|Hn]; destruct (decide (_ = 0)) as [|Hne]; try discriminate;
      injection Hn as <-;
      match goal with
      | |- context [occurrences ?key k (strokes d)] =>
          pose proof (occurrences_nonneg key k (strokes d));
          pose proof (occurrences_le key k (strokes d))
      end; lia.
Qed.

Lemma analytics_keys_are_what_is_used_witness :
  let a := get_room_analytics
             (snd (save_canvas team_a team_a_id three_strokes)) team_a_id in
  is_Some (color_usage a !! "red") ∧ ¬ is_Some (color_usage a !! "green").
Proof.
  destruct (analytics_keys_are_what_is_used team_a team_a_id three_strokes)
    as (Hc & _); [by eexists|].
  split.
  - apply Hc. exists (a_stroke "red" PEN None). split; [|reflexivity].
    apply list_elem_of_here.
  - intros Hgreen. apply Hc in Hgreen as (s & Hs & Hcol).
    unfold three_strokes in Hs. simpl in Hs.
    repeat (apply elem_of_cons in Hs as [->|Hs];
            [vm_compute in Hcol; discriminate|]).
    by apply not_elem_of_nil in Hs.
Defined.

Lemma well_keyed_run settings self c :
  well_keyed settings self → well_keyed settings (run settings self c).
Proof.
  intros Hwk r room.
  destruct c as [n u t|r' d|r' u|r' u|r']; unfold run.
  - rewrite create_room_eq. simpl.
    destruct (decide (r = u)) as [->|Hne].
    + rewrite lookup_insert_eq. intros [= <-]. repeat split.
    + rewrite lookup_insert_ne by congruence. apply Hwk.
  - destruct (rooms self !! r') as [room'|] eqn:Hr.
    + rewrite save_canvas_known by eauto. apply Hwk.
    + rewrite save_canvas_unknown by assumption. apply Hwk.
  - destruct (rooms self !! r') as [room'|] eqn:Hr.
    + rewrite (join_room_present _ _ _ _ Hr). simpl.
      destruct (decide (r = r')) as [->|Hne].
      * rewrite lookup_insert_eq. intros [= <-]. simpl. by apply Hwk.
      * rewrite lookup_insert_ne by congruence. apply Hwk.
    + rewrite join_room_absent by assumption. apply Hwk.
  - destruct (rooms self !! r') as [room'|] eqn:Hr.
    + rewrite (leave_room_present _ _ _ _ Hr). simpl.
      destruct (decide (r = r')) as [->|Hne].
      * rewrite lookup_insert_eq. intros [= <-]. simpl. by apply Hwk.
      * rewrite lookup_insert_ne by congruence. apply Hwk.
    + rewrite leave_room_absent by assumption. apply Hwk.
  - rewrite delete_room_eq. simpl.
    destruct (decide (r = r')) as [->|Hne].
    + by rewrite lookup_delete_eq.
    + rewrite lookup_delete_ne by congruence. apply Hwk.
Qed.

(** X7. What [get_room_info] can return. In every reachable state it
    raises "Room not found" exactly for the identifiers the registry does
    not hold, and the record it returns for [r] has [r] as its id, the
    default canvas size, and a member count that is not negative: no call
    ever rewrites the id or the size of a room. *)
Theorem get_room_info_record settings self r :
  reachable settings self →
  (get_room_info self r = Raise (Exception "Room not found")
     ↔ rooms self !! r = None)
  ∧ (∀ room, get_room_info self r = Return room →
       Room.id room = r
       ∧ Room.canvas_width room = DEFAULT_CANVAS_WIDTH settings
       ∧ Room.canvas_height room = DEFAULT_CANVAS_HEIGHT settings
       ∧ 0 ≤ Room.active_users room).
Proof.
  intros Hreach.
  assert (Hwk : well_keyed settings self).
  { induction Hreach as [|self c _ IH _]; [|by apply well_keyed_run].
    intros r' room. simpl. by rewrite lookup_empty. }
  pose proof (reachable_consistent _ _ Hreach) as (_ & _ & Hau).
  unfold get_room_info. destruct (rooms self !! r) as [room|] eqn:Hr.
  - split; [split; discriminate|]. intros room' [= <-].
    destruct (Hwk r room Hr) as (Hid & Hw & Hh). eauto using Hau.
  - split; [done|]. discriminate.
Qed.

Lemma get_room_info_record_witness :
  ∃ room, get_room_info team_a_two_members_saved team_a_id = Return room
        ∧ Room.id room = team_a_id
        ∧ Room.canvas_width room = 1920
        ∧ Room.active_users room = 2.
Proof.
  destruct (get_room_info team_a_two_members_saved team_a_id)
    as [room|e] eqn:Hroom; [|discriminate].
  destruct (get_room_info_record default_settings team_a_two_members_saved
              team_a_id reachable_team_a_two_members_saved) as [_ Hrec].
  destruct (Hrec room Hroom) as (Hid & Hw & _).
  exists room. split; [reflexivity|]. split; [exact Hid|]. split; [exact Hw|].
  by injection Hroom as <-.
Defined.

Lemma run_keeps_no_analytics settings self c r :
  analytics self !! r = None → ¬ saves_in r c →
  analytics (run settings self c) !! r = None.
Proof.
  intros Ha Hc.
  destruct c as [n u t|r' d|r' u|r' u|r']; unfold run; cbn [saves_in] in Hc.
  - by rewrite create_room_eq.
  - destruct (rooms self !! r') as [room|] eqn:Hr.
    + rewrite save_canvas_known by eauto. simpl.
      by rewrite lookup_insert_ne.
    + by rewrite save_canvas_unknown.
  - unfold join_room. by destruct (rooms self !! r').
  - unfold leave_room. by destruct (rooms self !! r').
  - rewrite delete_room_eq. simpl.
    destruct (decide (r = r')) as [->|Hne].
    + by rewrite lookup_delete_eq.
    + by rewrite lookup_delete_ne.
Qed.

(** X8. Analytics appear through a save only. Starting where room [r] has
    no analytics (a new service, for instance), after any sequence of calls
    none of which saves a document in [r], [get_room_analytics r] still
    answers the all-zero record: creating the room, joining and leaving do
    not start its analytics. *)
Theorem analytics_start_with_a_save settings cs : ∀ self r,
  analytics self !! r = None →
  Forall (fun c => ¬ saves_in r c) cs →
  get_room_analytics (run_all settings self cs) r = mock_analytics.
Proof.
  induction cs as [|c cs IH]; intros self r Ha Hall.
  - unfold run_all, get_room_analytics. simpl. by rewrite Ha.
  - apply Forall_cons in Hall as [Hc Hcs].
    unfold run_all. simpl. fold (run_all settings (run settings self c) cs).
    apply IH; [|exact Hcs]. by apply run_keeps_no_analytics.
Qed.

Lemma analytics_start_with_a_save_witness :
  get_room_analytics
    (run_all default_settings init
       [CreateRoom "Team A" team_a_id "2024-05-01T09:00:00";
        JoinRoom team_a_id "alice";
        SaveCanvas "room-b" three_strokes])
    team_a_id
  = mock_analytics.
Proof.
  apply (analytics_start_with_a_save default_settings
           [CreateRoom "Team A" team_a_id "2024-05-01T09:00:00";
            JoinRoom team_a_id "alice";
            SaveCanvas "room-b" three_strokes] init team_a_id).
  - reflexivity.
  - repeat constructor; simpl; try tauto. discriminate.
Defined.

(** * The HTTP endpoints of the canvas service *)

Lemma route_create_room_eq settings n u t s :
  Routes.create_room settings n u t s
  = (Routes.Ok {| Routes.room_id := u; Routes.room_name := n |},
     snd (create_room settings s n u t)).
Proof. reflexivity. Qed.

Lemma route_save_canvas_eq r d s :
  Routes.save_canvas r d s
  = (match fst (save_canvas s r d) with
     | Return _ => Routes.Ok "Canvas saved successfully"
     | Raise e =>
         Routes.HTTPException 500 (String.append "Failed to save canvas: " (str e))
     end,
     snd (save_canvas s r d)).
Proof.
  unfold Routes.save_canvas. by destruct (save_canvas s r d) as [[[]|e] s'].
Qed.

Lemma served_reachable settings s : served settings s → reachable settings s.
Proof.
  induction 1 as [|s q _ IH Hfresh]; [apply reachable_init|].
  destruct q as [n u t|r|r d|r|r]; unfold serve; try exact IH.
  - rewrite route_create_room_eq. simpl.
    by apply (reachable_run settings s (CreateRoom n u t)).
  - rewrite route_save_canvas_eq. simpl.
    by apply (reachable_run settings s (SaveCanvas r d)).
Qed.

Lemma served_team_a : served default_settings team_a.
Proof.
  apply (served_request default_settings init
           (PostRooms "Team A" team_a_id "2024-05-01T09:00:00")).
  - apply served_init.
  - reflexivity.
Defined.

(** X9. [POST /canvas/save] answers 500, never 404: for a room the registry
    does not hold the answer is status 500 with the detail
    "Failed to save canvas: Room not found" and the service is unchanged;
    for a room of the registry the answer is the success message, after
    which [GET /canvas] returns the saved document and [GET /analytics] the
    analytics recomputed from it. *)
Theorem save_endpoint_answers r d s :
  (rooms s !! r = None →
     Routes.save_canvas r d s
     = (Routes.HTTPException 500 "Failed to save canvas: Room not found", s))
  ∧ (is_Some (rooms s !! r) →
     ∃ s', Routes.save_canvas r d s = (Routes.Ok "Canvas saved successfully", s')
         ∧ Routes.get_canvas r s' = Routes.Ok d
         ∧ Routes.get_room_analytics r s'
           = Routes.Ok (recompute (default initial_analytics (analytics s !! r)) d))
  ∧ status (fst (Routes.save_canvas r d s)) ≠ 404.
Proof.
  rewrite route_save_canvas_eq. split; [|split].
  - intros Hr. by rewrite save_canvas_unknown.
  - intros Hr. rewrite save_canvas_known by assumption. simpl.
    eexists. split; [reflexivity|].
    unfold Routes.get_canvas, Routes.get_room_analytics,
      get_canvas, get_room_analytics. simpl.
    by rewrite !lookup_insert_eq.
  - by destruct (fst (save_canvas s r d)).
Qed.

(** X10. The two lookups answer 404 for the same rooms. In every state the
    endpoints can reach, [GET /rooms/{id}] answers 404 "Room not found"
    exactly when [GET /canvas/{id}] answers 404 "Canvas not found", which is
    exactly when the registry does not hold [id]; otherwise both return
    what is stored, and [GET /analytics/{id}] returns a value in either
    case. *)
Theorem lookup_endpoints_answer_404_together settings s r :
  served settings s →
  (Routes.get_room_info r s = Routes.HTTPException 404 "Room not found"
     ↔ rooms s !! r = None)
  ∧ (Routes.get_canvas r s = Routes.HTTPException 404 "Canvas not found"
     ↔ rooms s !! r = None)
  ∧ (∀ room, rooms s !! r = Some room →
       Routes.get_room_info r s = Routes.Ok room
       ∧ ∃ d, Routes.get_canvas r s = Routes.Ok d)
  ∧ status (Routes.get_room_analytics r s) = 200.
Proof.
  intros Hs. apply served_reachable in Hs.
  pose proof (reachable_consistent _ _ Hs) as (Hdom & _ & _).
  unfold Routes.get_room_info, Routes.get_canvas, get_room_info, get_canvas.
  specialize (Hdom r).
  assert (Hsame : canvas_data s !! r = None ↔ rooms s !! r = None).
  { rewrite !eq_None_not_Some. by rewrite Hdom. }
  clear Hdom. split; [|split; [|split; [|reflexivity]]].
  - destruct (rooms s !! r); split; done.
  - rewrite <- Hsame. destruct (canvas_data s !! r); split; done.
  - intros room Hr. rewrite Hr. split; [reflexivity|].
    destruct (canvas_data s !! r) as [d|]; [eauto|].
    destruct Hsame as [Hsame _]. specialize (Hsame eq_refl). congruence.
Qed.

Lemma lookup_endpoints_answer_404_together_witness :
  Routes.get_room_info "no-such-room" team_a
  = Routes.HTTPException 404 "Room not found"
  ∧ Routes.get_canvas "no-such-room" team_a
    = Routes.HTTPException 404 "Canvas not found".
Proof.
  destruct (lookup_endpoints_answer_404_together default_settings team_a
              "no-such-room" served_team_a) as (Hroom & Hcanvas & _).
  split; [by apply Hroom | by apply Hcanvas].
Defined.

Lemma serve_keeps_rooms settings s q r room :
  draws_fresh_id s q → rooms s !! r = Some room →
  rooms (serve settings s q) !! r = Some room.
Proof.
  intros Hfresh Hr. destruct q as [n u t|r'|r' d|r'|r']; unfold serve;
    try exact Hr.
  - rewrite route_create_room_eq, create_room_eq. simpl.
    rewrite lookup_insert_ne; [exact Hr|]. simpl in Hfresh. congruence.
  - rewrite route_save_canvas_eq. simpl.
    destruct (rooms s !! r') as [room'|] eqn:Hr'.
    + by rewrite save_canvas_known by eauto.
    + by rewrite save_canvas_unknown.
Qed.

(** X11. The endpoints never count members and never remove a room. In
    every state the HTTP endpoints can reach, every room has member count 0:
    no endpoint calls [join_room], [leave_room] or [delete_room]. A room's
    registry record, once created, is the same after every later request. *)
Theorem endpoints_never_count_members settings s :
  served settings s →
  (∀ r room, rooms s !! r = Some room → Room.active_users room = 0)
  ∧ (∀ q r room, draws_fresh_id s q → rooms s !! r = Some room →
       rooms (serve settings s q) !! r = Some room
       ∧ get_room_info (serve settings s q) r = get_room_info s r).
Proof.
  intros Hs. split.
  - induction Hs as [|s q _ IH Hfresh]; intros r room.
    + simpl. by rewrite lookup_empty.
    + destruct q as [n u t|r'|r' d|r'|r']; unfold serve; try apply IH.
      * rewrite route_create_room_eq, create_room_eq. simpl.
        destruct (decide (r = u)) as [->|Hne].
        -- rewrite lookup_insert_eq. by intros [= <-].
        -- rewrite lookup_insert_ne by congruence. apply IH.
      * rewrite route_save_canvas_eq. simpl.
        destruct (rooms s !! r') as [room'|] eqn:Hr'.
        -- rewrite save_canvas_known by eauto. apply IH.
        -- rewrite save_canvas_unknown by assumption. apply IH.
  - intros q r room Hfresh Hr.
    pose proof (serve_keeps_rooms settings s q r room Hfresh Hr) as Hkept.
    split; [exact Hkept|]. unfold get_room_info. by rewrite Hkept, Hr.
Qed.

Lemma endpoints_never_count_members_witness :
  member_count
    (serve default_settings team_a (PostCanvasSave team_a_id three_strokes))
    team_a_id
  = Some 0.
Proof.
  assert (Hs : served default_settings
                 (serve default_settings team_a
                    (PostCanvasSave team_a_id three_strokes)))
    by (apply served_request; [exact served_team_a | exact I]).
  destruct (endpoints_never_count_members default_settings _ Hs) as [Hzero _].
  unfold member_count.
  destruct (rooms _ !! team_a_id) as [room|] eqn:Hr.
  - simpl. f_equal. exact (Hzero _ _ Hr).
  - vm_compute in Hr. discriminate.
Defined.

(** X22. A created room is found at once. After [POST /rooms], which
    answers the new id and the name, [GET /rooms/{id}] returns the record
    with that id and name, the creation time, no members and the default
    canvas size; [GET /canvas/{id}] returns the empty document of that
    size; and the analytics stored under the id are not touched. *)
Theorem created_room_is_found settings room_name uuid4 now s :
  ∃ s',
    Routes.create_room settings room_name uuid4 now s
    = (Routes.Ok {| Routes.room_id := uuid4; Routes.room_name := room_name |}, s')
    ∧ Routes.get_room_info uuid4 s'
      = Routes.Ok {| Room.id := uuid4;
                     Room.name := room_name;
                     Room.created_at := now;
                     Room.active_users := 0;
                     Room.canvas_width := DEFAULT_CANVAS_WIDTH settings;
                     Room.canvas_height := DEFAULT_CANVAS_HEIGHT settings |}
    ∧ Routes.get_canvas uuid4 s'
      = Routes.Ok {| strokes := [];
                     canvas_width := DEFAULT_CANVAS_WIDTH settings;
                     canvas_height := DEFAULT_CANVAS_HEIGHT settings;
                     background_color := "#ffffff";
                     timestamp := None |}
    ∧ Routes.get_room_analytics uuid4 s' = Routes.get_room_analytics uuid4 s
    ∧ (rooms s !! uuid4 = None → served settings s →
         Routes.get_room_analytics uuid4 s' = Routes.Ok mock_analytics).
Proof.
  rewrite route_create_room_eq, create_room_eq. eexists. split; [reflexivity|].
  unfold Routes.get_room_info, Routes.get_canvas, Routes.get_room_analytics,
    get_room_info, get_canvas, get_room_analytics. simpl.
  rewrite !lookup_insert_eq. split; [reflexivity|]. split; [reflexivity|].
  split; [reflexivity|]. intros Hfresh Hs.
  destruct (consistent_fresh s uuid4
              (reachable_consistent _ _ (served_reachable _ _ Hs)) Hfresh)
    as [_ ->].
  reflexivity.
Qed.

(** * Uploads *)

Section Uploads.

Context `{Files}.

Variable UPLOAD_DIR : string.

Variable str_of_http : Z → string → string.

Lemma upload_image_raises_prefixed file uuid4 d e d' :
  upload_image UPLOAD_DIR file uuid4 d = (Raise e, d') →
  ∃ cause, e = Exception (String.append "Failed to upload image: " cause).
Proof.
  unfold upload_image. destruct (and_then _ _ d) as [[url|e0] d0]; simpl.
  - discriminate.
  - intros [= <- _]. eauto.
Qed.

(** X12. [POST /upload] never answers 400. For a file that is no image
    (content type missing, empty or not starting with "image/") the 400
    raised under [try] is caught by the handler below it: the answer is
    status 500 with detail "Upload failed: " followed by the text of that
    exception, and the disk is untouched. For an image the answer is the URL
    the service returns, or status 500 with detail
    "Upload failed: Failed to upload image: ..." when the service raises. *)
Theorem upload_endpoint_never_answers_400 file uuid4 d :
  (is_image file = false →
     Routes.upload_image UPLOAD_DIR str_of_http file uuid4 d
     = (Routes.HTTPException 500
          (String.append "Upload failed: "
             (str_of_http 400 "File must be an image")), d))
  ∧ (is_image file = true →
     (∀ url d', upload_image UPLOAD_DIR file uuid4 d = (Return url, d') →
        Routes.upload_image UPLOAD_DIR str_of_http file uuid4 d
        = (Routes.Ok url, d'))
     ∧ (∀ e d', upload_image UPLOAD_DIR file uuid4 d = (Raise e, d') →
        ∃ cause,
          Routes.upload_image UPLOAD_DIR str_of_http file uuid4 d
          = (Routes.HTTPException 500
               (String.append "Upload failed: "
                  (String.append "Failed to upload image: " cause)), d')))
  ∧ (status (fst (Routes.upload_image UPLOAD_DIR str_of_http file uuid4 d)) = 200
     ∨ status (fst (Routes.upload_image UPLOAD_DIR str_of_http file uuid4 d)) = 500).
Proof.
  unfold Routes.upload_image, is_image.
  destruct (content_type file) as [ct|]; simpl.
  - destruct (bool_decide (ct = "")); simpl.
    + split; [reflexivity|]. split; [discriminate | by right].
    + destruct (String.prefix "image/" ct); simpl.
      * split; [discriminate|]. split.
        -- intros _. split.
           ++ by intros url d' ->.
           ++ intros e d' Hup.
              destruct (upload_image_raises_prefixed _ _ _ _ _ Hup) as [cause ->].
              rewrite Hup. simpl. eauto.
        -- destruct (upload_image UPLOAD_DIR file uuid4 d) as [[url|e] d'];
             simpl; [by left | by right].
      * split; [reflexivity|]. split; [discriminate | by right].
  - split; [reflexivity|]. split; [discriminate | by right].
Qed.

(** X13. An upload is not atomic. The service opens the destination for
    writing before it reads the upload: when the directory and the file open
    fine and reading the upload raises, [upload_image] raises
    "Failed to upload image: ..." and leaves the disk as the open left it,
    with the destination file opened for writing and nothing written. On
    success the URL is "/uploads/" followed by the identifier drawn and the
    extension of the client's file name, nothing else of that name. *)
Theorem upload_image_opens_before_reading file uuid4 d d1 d2 :
  let name :=
    String.append uuid4 (snd (splitext (default "" (filename file)))) in
  makedirs UPLOAD_DIR d = (Return tt, d1) →
  open_wb (path_join UPLOAD_DIR name) d1 = (Return tt, d2) →
  (∀ e, read file = Raise e →
     upload_image UPLOAD_DIR file uuid4 d
     = (Raise (Exception (String.append "Failed to upload image: " (str e))), d2))
  ∧ (∀ content d3, read file = Return content →
       write (path_join UPLOAD_DIR name) content d2 = (Return tt, d3) →
       upload_image UPLOAD_DIR file uuid4 d
       = (Return (String.append "/uploads/" name), d3)).
Proof.
  intros name Hmk Hopen. unfold upload_image, and_then. rewrite Hmk.
  fold name. rewrite Hopen. split.
  - by intros e ->.
  - intros content d3 -> Hwrite. by rewrite Hwrite.
Qed.

End Uploads.

Lemma upload_endpoint_never_answers_400_witness :
  @Routes.upload_image sample_files "uploads" sample_str_of_http
    a_text_file "7c9e6679" ∅
  = (Routes.HTTPException 500 "Upload failed: 400: File must be an image", ∅).
Proof.
  destruct (@upload_endpoint_never_answers_400 sample_files "uploads"
              sample_str_of_http a_text_file "7c9e6679" ∅) as [Hno _].
  exact (Hno eq_refl).
Defined.

Lemma upload_image_opens_before_reading_witness :
  @upload_image sample_files "uploads" a_broken_picture "7c9e6679" ∅
  = (Raise (Exception "Failed to upload image: connection lost"),
     {[ "uploads/7c9e6679.png" := [] ]})
  ∧ @upload_image sample_files "uploads" a_picture "7c9e6679" ∅
    = (Return "/uploads/7c9e6679.png",
       {[ "uploads/7c9e6679.png" := [Byte.x89; Byte.x50; Byte.x4e] ]}).
Proof.
  split.
  - destruct (@upload_image_opens_before_reading sample_files "uploads"
                a_broken_picture "7c9e6679" ∅ ∅
                {[ "uploads/7c9e6679.png" := [] ]} eq_refl eq_refl)
      as [Hfail _].
    exact (Hfail _ eq_refl).
  - destruct (@upload_image_opens_before_reading sample_files "uploads"
                a_picture "7c9e6679" ∅ ∅
                {[ "uploads/7c9e6679.png" := [] ]} eq_refl eq_refl)
      as [_ Hok].
    exact (Hok _ {[ "uploads/7c9e6679.png" := [Byte.x89; Byte.x50; Byte.x4e] ]}
             eq_refl eq_refl).
Defined.

(** * The mock analysis *)

Lemma append_cells_eq randint n : ∀ k row,
  append_cells randint k n row = row ++ (randint <$> seq k n).
Proof.
  induction n as [|n IH]; intros k row; simpl.
  - by rewrite app_nil_r.
  - rewrite IH, <- app_assoc. reflexivity.
Qed.

Lemma append_rows_eq randint m : ∀ k heatmap,
  append_rows randint k m heatmap
  = heatmap
    ++ ((fun i => randint <$> seq (k + 192 * i) 192) <$> seq 0 m).
Proof.
  induction m as [|m IH]; intros k heatmap.
  - exact (eq_sym (app_nil_r heatmap)).
  - change (append_rows randint k (S m) heatmap)
      with (append_rows randint (k + 192) m
              (heatmap ++ [append_cells randint k 192 []])).
    rewrite IH, append_cells_eq, app_nil_l, <- app_assoc. f_equal.
    replace (seq 0 (S m)) with (0%nat :: (S <$> seq 0 m))
      by (rewrite fmap_S_seq; apply cons_seq).
    rewrite fmap_cons, <- list_fmap_compose, Nat.mul_0_r, Nat.add_0_r.
    change ([?x] ++ ?l) with (x :: l). f_equal.
    apply list_fmap_ext. intros _ i _. unfold compose.
    by replace (k + 192 * S i)%nat with (k + 192 + 192 * i)%nat by lia.
Qed.

Lemma mock_heatmap_eq randint :
  AIService._generate_mock_heatmap randint
  = (fun i => randint <$> seq (192 * i) 192) <$> seq 0 108.
Proof.
  unfold AIService._generate_mock_heatmap. rewrite append_rows_eq, app_nil_l.
  apply list_fmap_ext. intros _ i _. by rewrite Nat.add_0_l.
Qed.

(** X14. The mock heat map is a grid of 108 rows of 192 cells, a tenth of
    the 1080 by 1920 it is declared for, filled row by row from the random
    draws: the cell in row [i], column [j] is draw number [192 * i + j], so
    every cell lies within 0..100 when every draw does. [analyze_canvas]
    returns it for every room and never raises. *)
Theorem mock_heatmap_grid room_id randint :
  ∃ a, AIService.analyze_canvas room_id randint = Return a
     ∧ Z.of_nat (length (hm_data (heatmap_data a)))
       = hm_height (heatmap_data a) / 10
     ∧ (∀ row, row ∈ hm_data (heatmap_data a) →
          Z.of_nat (length row) = hm_width (heatmap_data a) / 10)
     ∧ (∀ i j, (i < 108)%nat → (j < 192)%nat →
          hm_data (heatmap_data a) !! i ≫= (fun row => row !! j)
          = Some (randint (192 * i + j)%nat))
     ∧ ((∀ k, 0 ≤ randint k ≤ 100) →
          ∀ row cell, row ∈ hm_data (heatmap_data a) → cell ∈ row →
            0 ≤ cell ≤ 100).
Proof.
  eexists. split; [reflexivity|].
  cbn [heatmap_data hm_data hm_width hm_height]. rewrite mock_heatmap_eq.
  split; [|split; [|split]].
  - rewrite length_fmap, length_seq. reflexivity.
  - intros row Hrow. apply list_elem_of_fmap in Hrow as (i & -> & _).
    rewrite length_fmap, length_seq. reflexivity.
  - intros i j Hi Hj. rewrite list_lookup_fmap, lookup_seq_lt by exact Hi.
    cbn [fmap option_fmap option_map mbind option_bind].
    rewrite list_lookup_fmap, lookup_seq_lt by exact Hj. reflexivity.
  - intros Hdraw row cell Hrow Hcell.
    apply list_elem_of_fmap in Hrow as (i & -> & _).
    apply list_elem_of_fmap in Hcell as (k & -> & _). apply Hdraw.
Qed.

(** * The order of binary64 floats

    [<=] and [<] on floats, read through their specification on
    sign, mantissa and exponent: what the threshold tests rely on. *)

Lemma SFcompare_trans a b c :
  SpecFloat.SFleb a b = true → SpecFloat.SFleb b c = true →
  SpecFloat.SFleb a c = true
  ∧ (SpecFloat.SFltb a b = true ∨ SpecFloat.SFltb b c = true →
     SpecFloat.SFltb a c = true).
Proof.
  unfold SpecFloat.SFleb, SpecFloat.SFltb.
  destruct a as [sa|sa| |sa ma ea], b as [sb|sb| |sb mb eb],
    c as [sc|sc| |sc mc ec]; simpl; try discriminate;
    try destruct sa; try destruct sb; try destruct sc; simpl;
    try discriminate; try (intros _ _; split; [reflexivity | tauto]);
    try (intros _ _; split; [reflexivity | intros [|]; reflexivity || discriminate]);
    change (PosDef.Pos.compare_cont Eq ?p ?q) with (Pos.compare p q);
    repeat match goal with
      | |- context [Z.compare ?x ?y] => destruct (Z.compare_spec x y)
      | |- context [Pos.compare ?x ?y] => destruct (Pos.compare_spec x y)
      end; simpl; try discriminate; try lia;
    intros _ _; (split; [reflexivity | intros [|]; reflexivity || discriminate]).
Qed.

Lemma float_leb_trans x y z :
  PrimFloat.leb x y = true → PrimFloat.leb y z = true → PrimFloat.leb x z = true.
Proof.
  rewrite !FloatAxioms.leb_spec. intros Hxy Hyz.
  by destruct (SFcompare_trans _ _ _ Hxy Hyz).
Qed.

Lemma float_ltb_leb x y : PrimFloat.ltb x y = true → PrimFloat.leb x y = true.
Proof.
  rewrite FloatAxioms.ltb_spec, FloatAxioms.leb_spec.
  unfold SpecFloat.SFltb, SpecFloat.SFleb.
  by destruct (SpecFloat.SFcompare _ _) as [[]|].
Qed.

Lemma float_leb_ltb_false x y :
  PrimFloat.ltb x y = true → PrimFloat.leb y x = true → False.
Proof.
  intros Hlt Hle. pose proof (float_ltb_leb _ _ Hlt) as Hle'.
  revert Hlt Hle Hle'.
  rewrite FloatAxioms.ltb_spec, !FloatAxioms.leb_spec. intros Hlt Hle Hle'.
  destruct (SFcompare_trans _ _ _ Hle' Hle) as [_ Hxx].
  specialize (Hxx (or_introl Hlt)). revert Hxx.
  unfold SpecFloat.SFltb.
  destruct (FloatOps.Prim2SF x) as [s|s| |s m e]; simpl; try destruct s; simpl;
    try discriminate;
    change (PosDef.Pos.compare_cont Eq m m) with (Pos.compare m m);
    rewrite Z.compare_refl, Pos.compare_refl; discriminate.
Qed.

Lemma float_leb_ltb_trans x y z :
  PrimFloat.leb x y = true → PrimFloat.ltb y z = true → PrimFloat.ltb x z = true.
Proof.
  intros Hxy Hyz. pose proof (float_ltb_leb _ _ Hyz) as Hyz'.
  revert Hxy Hyz Hyz'.
  rewrite !FloatAxioms.ltb_spec, !FloatAxioms.leb_spec. intros Hxy Hyz Hyz'.
  destruct (SFcompare_trans _ _ _ Hxy Hyz') as [_ Hlt]. apply Hlt. by right.
Qed.

(** ** What the classifier can return *)

Section ClassifierMore.

Context `{Imaging}.

Lemma classify_shape_cases c info :
  _classify_shape c = Return info →
  vertices info = len c
  ∧ area info = contourArea c
  ∧ ((len c = 3 ∧ type info = "triangle" ∧ confidence info = 0.9%float)
     ∨ (len c = 4 ∧ type info = "square" ∧ confidence info = 0.85%float)
     ∨ (len c = 4 ∧ type info = "rectangle" ∧ confidence info = 0.8%float)
     ∨ (8 < len c ∧ type info = "circle"
        ∧ PrimFloat.ltb 0.8 (confidence info) = true)
     ∨ (len c ≠ 3 ∧ len c ≠ 4 ∧ type info = "unknown"
        ∧ confidence info = 0.5%float)).
Proof.
  unfold _classify_shape.
  destruct (Z.eqb_spec (len c) 3) as [H3|H3].
  { intros [= <-]. simpl. rewrite H3. tauto. }
  destruct (Z.eqb_spec (len c) 4) as [H4|H4].
  { destruct (boundingRect c) as [[[x y] w] h].
    destruct (truediv_float_int (float_of_Z w) h) as [ar|e]; simpl; [|discriminate].
    destruct (_ && _); intros [= <-]; simpl; rewrite H4; tauto. }
  destruct (Z.gtb_spec (len c) 8) as [H8|H8].
  - destruct (circularity_of _ _) as [circ|e]; simpl; [|discriminate].
    destruct (PrimFloat.ltb 0.8 circ) eqn:Hc; intros [= <-]; simpl.
    + split; [reflexivity|]. split; [reflexivity|].
      right. right. right. left. split; [lia | by split].
    + tauto.
  - intros [= <-]. simpl. tauto.
Qed.

(** X15. The kind of a classified shape tells the number of vertices and
    bounds the confidence. Whenever [_classify_shape] returns, the result
    carries the contour's own vertex count and area; its kind is triangle
    exactly for 3 vertices, square or rectangle exactly for 4, circle only
    for more than 8; and its confidence is never below 0.5, with
    confidence exactly 0.5 for the kind unknown and above 0.7 for every
    other kind. *)
Theorem classified_kind_and_confidence c info :
  _classify_shape c = Return info →
  vertices info = len c
  ∧ area info = contourArea c
  ∧ type info ∈ ["triangle"; "square"; "rectangle"; "circle"; "unknown"]
  ∧ (type info = "triangle" ↔ len c = 3)
  ∧ (type info = "square" ∨ type info = "rectangle" ↔ len c = 4)
  ∧ (type info = "circle" → 8 < len c)
  ∧ PrimFloat.leb 0.5 (confidence info) = true
  ∧ (type info = "unknown" → confidence info = 0.5%float)
  ∧ (type info ≠ "unknown" → PrimFloat.ltb 0.7 (confidence info) = true).
Proof.
  intros Hc. destruct (classify_shape_cases c info Hc) as (Hv & Ha & Hcases).
  split; [exact Hv|]. split; [exact Ha|].
  assert (Hcircle : ∀ x, PrimFloat.ltb 0.8 x = true →
            PrimFloat.leb 0.5 x = true ∧ PrimFloat.ltb 0.7 x = true).
  { intros x Hx. split.
    - apply (float_leb_trans _ 0.8%float); [reflexivity | by apply float_ltb_leb].
    - by apply (float_leb_ltb_trans _ 0.8%float). }
  assert (Hfix : ∀ x, confidence info = x →
            PrimFloat.leb 0.5 x = true →
            PrimFloat.leb 0.5 (confidence info) = true) by (by intros x ->).
  destruct Hcases as [(Hl & Ht & Hcf)|[(Hl & Ht & Hcf)|[(Hl & Ht & Hcf)|
                     [(Hl & Ht & Hcf)|(Hl3 & Hl4 & Ht & Hcf)]]]];
    rewrite Ht.
  all: split; [by repeat constructor|].
  all: split; [split; intros; first [assumption | reflexivity | discriminate | lia]|].
  all: split;
    [split; [intros [|]; first [assumption | discriminate | lia]
            |intros; first [by left | by right | lia]]|].
  all: split; [intros; first [assumption | discriminate]|].
  all: split;
    [first [by apply (Hfix _ Hcf) | by apply Hcircle]|].
  all: split; [intros; first [assumption | discriminate]|].
  all: intros Hne; first [by rewrite Hcf | by apply Hcircle | done].
Qed.

End ClassifierMore.

Lemma classified_kind_and_confidence_witness :
  ∃ info, @_classify_shape sample_imaging round_contour = Return info
        ∧ vertices info = 12
        ∧ PrimFloat.leb 0.5 (confidence info) = true.
Proof.
  destruct (@_classify_shape sample_imaging round_contour) as [info|e] eqn:Hc;
    [|vm_compute in Hc; discriminate].
  destruct (@classified_kind_and_confidence sample_imaging round_contour info Hc)
    as (Hv & _ & _ & _ & _ & _ & Hconf & _).
  exists info. split; [reflexivity|]. split; [exact Hv | exact Hconf].
Defined.

(** ** Which shapes a threshold keeps *)

Section Thresholds.

Context `{Imaging}.

Lemma classified_confidence c info :
  classified c = Return info →
  PrimFloat.leb 0.5 (confidence info) = true
  ∧ (type info = "unknown" → confidence info = 0.5%float)
  ∧ (type info ≠ "unknown" → PrimFloat.ltb 0.7 (confidence info) = true).
Proof.
  unfold classified. intros Hc.
  destruct (classify_shape_cases _ info Hc)
    as (_ & _ & [(_ & Ht & Hcf)|[(_ & Ht & Hcf)|[(_ & Ht & Hcf)|
                [(_ & Ht & Hcf)|(_ & _ & Ht & Hcf)]]]]);
    rewrite Ht.
  1-3, 5: rewrite Hcf; (split; [reflexivity|]); split; intros; done.
  split; [|split; [discriminate|intros _]].
  - apply (float_leb_trans _ 0.8%float); [reflexivity | by apply float_ltb_leb].
  - by apply (float_leb_ltb_trans _ 0.8%float).
Qed.

Lemma filter_ext_Forall {A : Type} (P Q : A → Prop)
    `{!∀ x, Decision (P x)} `{!∀ x, Decision (Q x)} (l : list A) :
  Forall (fun x => P x ↔ Q x) l → filter P l = filter Q l.
Proof.
  induction 1 as [|x l Hx _ IH]; [reflexivity|].
  rewrite !filter_cons, IH.
  destruct (decide (P x)), (decide (Q x)); tauto.
Qed.

Lemma filter_all_Forall {A : Type} (P : A → Prop) `{!∀ x, Decision (P x)}
    (l : list A) :
  Forall P l → filter P l = l.
Proof.
  induction 1 as [|x l Hx _ IH]; [reflexivity|].
  by rewrite filter_cons_True, IH.
Qed.

Lemma Forall2_classified_Forall (P : ShapeInfo → Prop) contours infos :
  Forall2 (fun c info => classified c = Return info) contours infos →
  (∀ c info, classified c = Return info → P info) →
  Forall P infos.
Proof.
  intros Hall HP. induction Hall as [|c info cs infos Hc _ IH]; constructor; eauto.
Qed.

(** X16. What [POST /ai/detect-shapes] returns. Whatever threshold and
    shape limit the request carries, when every contour of the image
    classifies, the endpoint returns exactly the classified shapes whose
    kind is not unknown, in the order of the contours: the default
    threshold 0.7 lies above the confidence 0.5 of unknown and below the
    confidence of every other kind. *)
Theorem detect_shapes_endpoint_drops_unknown request start_time end_time
    contours infos :
  find_contours (second_field_or_all (sd_image_data request)) = Return contours →
  Forall2 (fun c info => classified c = Return info) contours infos →
  ∃ result,
    Routes.detect_shapes request start_time end_time = Routes.Ok result
    ∧ shapes result = filter (fun s => type s ≠ "unknown") infos
    ∧ sdr_confidence result = mean_of_floats (confidence <$> shapes result).
Proof.
  intros Hfind Hall.
  rewrite (route_detect_shapes_default _ _ _ _ _ Hfind Hall).
  eexists. split; [reflexivity|]. simpl. split; [|reflexivity].
  apply filter_ext_Forall.
  apply (Forall2_classified_Forall _ contours infos Hall).
  intros c info Hc. destruct (classified_confidence c info Hc) as (_ & Hu & Hk).
  unfold meets. split.
  - intros Hmeets Hunknown. rewrite (Hu Hunknown) in Hmeets. discriminate.
  - intros Hkind. by apply float_ltb_leb, Hk.
Qed.

(** X17. Thresholds are monotone. When every contour of the image
    classifies, [detect_shapes] under a threshold [t2] returns a subset of
    what it returns under a lower threshold [t1], and under any threshold
    up to 0.5 it returns every classified shape. *)
Theorem detect_shapes_threshold_monotone image_data t1 t2 start_time end_time
    contours infos :
  find_contours (second_field_or_all image_data) = Return contours →
  Forall2 (fun c info => classified c = Return info) contours infos →
  ∃ r1 r2,
    AIService.detect_shapes image_data t1 start_time end_time = Return r1
    ∧ AIService.detect_shapes image_data t2 start_time end_time = Return r2
    ∧ (PrimFloat.leb t1 t2 = true → shapes r2 ⊆ shapes r1)
    ∧ (PrimFloat.leb t1 0.5 = true → shapes r1 = infos).
Proof.
  intros Hfind Hall.
  rewrite !(detect_shapes_retains _ _ _ _ _ _ Hfind Hall).
  eexists _, _. split; [reflexivity|]. split; [reflexivity|]. simpl. split.
  - intros Ht s. rewrite !list_elem_of_filter. unfold meets.
    intros [Hs Hin]. split; [|exact Hin]. by apply (float_leb_trans _ t2).
  - intros Ht. apply filter_all_Forall.
    apply (Forall2_classified_Forall _ contours infos Hall).
    intros c info Hc. destruct (classified_confidence c info Hc) as (Hhalf & _).
    unfold meets. by apply (float_leb_trans _ 0.5%float).
Qed.

End Thresholds.

Lemma mixed_classified :
  @find_contours sample_imaging
    (second_field_or_all (sd_image_data mixed_request))
  = Return [triangle_contour; pentagon_contour; wide_contour; round_contour]
  ∧ Forall2 (fun c info => @classified sample_imaging c = Return info)
      [triangle_contour; pentagon_contour; wide_contour; round_contour]
      mixed_infos.
Proof.
  split; [reflexivity|]. repeat constructor; vm_compute; reflexivity.
Defined.

Lemma detect_shapes_endpoint_drops_unknown_witness :
  ∃ result,
    @Routes.detect_shapes sample_imaging mixed_request 100 101.5
    = Routes.Ok result
    ∧ type <$> shapes result = ["triangle"; "rectangle"; "circle"].
Proof.
  destruct (@detect_shapes_endpoint_drops_unknown sample_imaging mixed_request
              100 101.5 _ mixed_infos (proj1 mixed_classified)
              (proj2 mixed_classified)) as (result & Hres & Hshapes & _).
  exists result. split; [exact Hres|]. rewrite Hshapes. reflexivity.
Defined.

Lemma detect_shapes_threshold_monotone_witness :
  ∃ r1 r2,
    @AIService.detect_shapes sample_imaging "mixed" 0.5 100 101.5 = Return r1
    ∧ @AIService.detect_shapes sample_imaging "mixed" 0.85 100 101.5 = Return r2
    ∧ shapes r2 ⊆ shapes r1
    ∧ shapes r1 = mixed_infos.
Proof.
  destruct (@detect_shapes_threshold_monotone sample_imaging "mixed" 0.5 0.85
              100 101.5 _ mixed_infos (proj1 mixed_classified)
              (proj2 mixed_classified)) as (r1 & r2 & H1 & H2 & Hsub & Hall).
  exists r1, r2. split; [exact H1|]. split; [exact H2|].
  split; [apply Hsub | apply Hall]; reflexivity.
Defined.

(** ** How shape detection fails *)

Section DetectionFailures.

Context `{Imaging}.

Lemma collect_shapes_raises thr contours : ∀ acc c e,
  c ∈ contours → classified c = Raise e →
  ∃ e', collect_shapes thr contours acc = Raise e'.
Proof.
  induction contours as [|c0 contours IH]; intros acc c e Hin Hc.
  - by apply elem_of_nil in Hin.
  - cbn [collect_shapes]. fold (classified c0).
    destruct (classified c0) as [info|e0] eqn:Hc0; cbn [mbind outcome_bind].
    + apply elem_of_cons in Hin as [->|Hin]; [congruence|].
      destruct (PrimFloat.leb thr (confidence info)); by eapply IH.
    + eauto.
Qed.

(** X18. Shape detection fails as a whole, and the endpoint says so twice.
    [detect_shapes] raises when the image cannot be turned into contours,
    and also when one single contour fails to classify, whatever the
    others are and whatever the threshold; what it raises is always an
    [Exception] whose text starts with "Shape detection failed: ". The
    endpoint then answers status 500 with that prefix doubled:
    "Shape detection failed: Shape detection failed: ...". *)
Theorem detect_shapes_failures image_data thr start_time end_time :
  (∀ e, find_contours (second_field_or_all image_data) = Raise e →
     AIService.detect_shapes image_data thr start_time end_time
     = Raise (Exception (String.append "Shape detection failed: " (str e))))
  ∧ (∀ contours c e,
       find_contours (second_field_or_all image_data) = Return contours →
       c ∈ contours → classified c = Raise e →
       ∃ e', AIService.detect_shapes image_data thr start_time end_time = Raise e')
  ∧ (∀ e, AIService.detect_shapes image_data thr start_time end_time = Raise e →
       ∃ cause, e = Exception (String.append "Shape detection failed: " cause))
  ∧ (∀ request e,
       AIService.detect_shapes (sd_image_data request)
         default_confidence_threshold start_time end_time = Raise e →
       ∃ cause,
         Routes.detect_shapes request start_time end_time
         = Routes.HTTPException 500
             (String.append "Shape detection failed: "
                (String.append "Shape detection failed: " cause))).
Proof.
  assert (Hprefix : ∀ image thr' e,
    AIService.detect_shapes image thr' start_time end_time = Raise e →
    ∃ cause, e = Exception (String.append "Shape detection failed: " cause)).
  { intros image thr' e. unfold AIService.detect_shapes.
    destruct (_ ≫= _) as [r|e0]; simpl; [discriminate|].
    intros [= <-]. eauto. }
  split; [|split; [|split]].
  - intros e He. unfold AIService.detect_shapes. by rewrite He.
  - intros contours c e Hfind Hin Hc. unfold AIService.detect_shapes.
    rewrite Hfind. cbn [mbind outcome_bind].
    destruct (collect_shapes_raises thr contours [] c e Hin Hc) as [e' ->].
    simpl. eauto.
  - apply Hprefix.
  - intros request e He. unfold Routes.detect_shapes. rewrite He.
    destruct (Hprefix _ _ _ He) as [cause ->]. simpl. eauto.
Qed.

End DetectionFailures.

(** ** Ragged OCR tables *)

Section RaggedTables.

Context `{Imaging}.

Lemma box_at_fragment data i c :
  conf data !! i = Some c →
  match fragment data i with
  | Some b => box_at data i c = Return b ∧ bb_confidence b = c
  | None => box_at data i c = Raise (IndexError "list index out of range")
  end.
Proof.
  intros Hc. unfold fragment, box_at, index. rewrite Hc. simpl.
  destruct (data_text data !! i); simpl; [|reflexivity].
  destruct (left data !! i); simpl; [|reflexivity].
  destruct (top data !! i); simpl; [|reflexivity].
  destruct (data_width data !! i); simpl; [|reflexivity].
  destruct (data_height data !! i); simpl; [|reflexivity].
  by split.
Qed.

Lemma collect_boxes_complete data : ∀ confs i acc,
  (∀ k c, confs !! k = Some c → conf data !! (i + k)%nat = Some c) →
  (∀ k c, confs !! k = Some c → 60 < c → is_Some (fragment data (i + k))) →
  collect_boxes data i confs acc
  = Return (acc ++ filter above_cutoff
                     (omap (fragment data) (seq i (length confs)))).
Proof.
  induction confs as [|c confs IH]; intros i acc Hconfs Hfull.
  - simpl. by rewrite app_nil_r.
  - assert (Hi : conf data !! i = Some c).
    { specialize (Hconfs 0%nat c eq_refl). by rewrite Nat.add_0_r in Hconfs. }
    assert (Hrest : ∀ k c', confs !! k = Some c' →
                            conf data !! (S i + k)%nat = Some c').
    { intros k c' Hk. specialize (Hconfs (S k) c' Hk).
      by replace (S i + k)%nat with (i + S k)%nat by lia. }
    assert (Hfull' : ∀ k c', confs !! k = Some c' → 60 < c' →
                             is_Some (fragment data (S i + k))).
    { intros k c' Hk Hc'. specialize (Hfull (S k) c' Hk Hc').
      by replace (S i + k)%nat with (i + S k)%nat by lia. }
    pose proof (box_at_fragment data i c Hi) as Hbox.
    cbn -[box_at fragment filter].
    destruct (Z.gtb_spec c 60) as [Hgt|Hle].
    + destruct (Hfull 0%nat c eq_refl ltac:(lia)) as [b Hb].
      rewrite Nat.add_0_r in Hb. rewrite Hb in Hbox |- *.
      destruct Hbox as [-> Hbc]. cbn [mbind outcome_bind].
      rewrite (IH (S i) _ Hrest Hfull'), <- app_assoc, filter_cons.
      rewrite decide_True by (unfold above_cutoff; lia). reflexivity.
    + rewrite (IH (S i) _ Hrest Hfull').
      destruct (fragment data i) as [b|]; [|reflexivity].
      destruct Hbox as [_ Hbc]. rewrite filter_cons.
      rewrite decide_False by (unfold above_cutoff; lia). reflexivity.
Qed.

Lemma collect_boxes_torn data : ∀ confs i acc,
  (∀ k c, confs !! k = Some c → conf data !! (i + k)%nat = Some c) →
  (∃ k c, confs !! k = Some c ∧ 60 < c ∧ fragment data (i + k) = None) →
  collect_boxes data i confs acc
  = Raise (IndexError "list index out of range").
Proof.
  induction confs as [|c confs IH]; intros i acc Hconfs (k & c' & Hk & Hc' & Hnone).
  - discriminate.
  - assert (Hi : conf data !! i = Some c).
    { specialize (Hconfs 0%nat c eq_refl). by rewrite Nat.add_0_r in Hconfs. }
    assert (Hrest : ∀ k c', confs !! k = Some c' →
                            conf data !! (S i + k)%nat = Some c').
    { intros j c'' Hj. specialize (Hconfs (S j) c'' Hj).
      by replace (S i + j)%nat with (i + S j)%nat by lia. }
    pose proof (box_at_fragment data i c Hi) as Hbox.
    assert (Hlater : ∀ acc', k ≠ 0%nat →
              collect_boxes data (S i) confs acc'
              = Raise (IndexError "list index out of range")).
    { intros acc' Hk0. destruct k as [|k]; [done|].
      apply IH; [exact Hrest|]. exists k, c'. split; [exact Hk|].
      split; [exact Hc'|]. by replace (S i + k)%nat with (i + S k)%nat by lia. }
    cbn -[box_at fragment].
    destruct (Z.gtb_spec c 60) as [Hgt|Hle].
    + destruct (fragment data i) as [b|] eqn:Hb.
      * destruct Hbox as [-> _]. cbn [mbind outcome_bind]. apply Hlater.
        intros ->. rewrite Nat.add_0_r in Hnone. congruence.
      * by rewrite Hbox.
    + apply Hlater. intros ->. injection Hk as ->. lia.
Qed.

(** X19. A ragged table fails only above the cutoff. When some column of
    the table Tesseract returns is shorter than [conf], [perform_ocr] still
    returns, with exactly the complete rows above 60, as long as every row
    above 60 is complete: rows at or below the cutoff are never indexed. If
    a row above 60 misses a column, it raises
    "OCR failed: list index out of range". Every box returned has
    confidence 61 or more. *)
Theorem perform_ocr_ragged_table image_data language start_time end_time
    text data :
  tesseract (second_field_or_all image_data) language = Return (text, data) →
  ((∀ i c, conf data !! i = Some c → 60 < c → is_Some (fragment data i)) →
     ∃ result,
       perform_ocr image_data language start_time end_time = Return result
       ∧ bounding_boxes result = filter above_cutoff (fragments data)
       ∧ ∀ b, b ∈ bounding_boxes result → 61 ≤ bb_confidence b)
  ∧ ((∃ i c, conf data !! i = Some c ∧ 60 < c ∧ fragment data i = None) →
     perform_ocr image_data language start_time end_time
     = Raise (Exception "OCR failed: list index out of range")).
Proof.
  intros Htess. unfold perform_ocr. rewrite Htess. cbn [mbind outcome_bind].
  split.
  - intros Hfull.
    rewrite (collect_boxes_complete data (conf data) 0 []); [|done|done].
    cbn [mbind outcome_bind app]. rewrite mean_box_confidence_eq.
    eexists. split; [reflexivity|]. simpl. fold (fragments data).
    split; [reflexivity|]. intros b Hb.
    apply list_elem_of_filter in Hb as [Hb _]. unfold above_cutoff in Hb. lia.
  - intros Htorn.
    rewrite (collect_boxes_torn data (conf data) 0 []); [reflexivity|done|done].
Qed.

End RaggedTables.

Lemma perform_ocr_ragged_table_witness :
  (∃ result,
     @perform_ocr (table_imaging ragged_table) "note" "eng" 100 101.5
     = Return result
     ∧ bb_text <$> bounding_boxes result = ["Team"; "plan"])
  ∧ @perform_ocr (table_imaging torn_table) "note" "eng" 100 101.5
    = Raise (Exception "OCR failed: list index out of range").
Proof.
  split.
  - destruct (@perform_ocr_ragged_table (table_imaging ragged_table)
                "note" "eng" 100 101.5 _ ragged_table eq_refl) as [Hok _].
    destruct Hok as (result & Hres & Hboxes & _).
    + intros i c Hi Hc.
      destruct i as [|[|[|i]]]; simpl in Hi; try discriminate;
        injection Hi as <-; try lia; by eexists.
    + exists result. split; [exact Hres|]. rewrite Hboxes. reflexivity.
  - destruct (@perform_ocr_ragged_table (table_imaging torn_table)
                "note" "eng" 100 101.5 _ torn_table eq_refl) as [_ Htorn].
    apply Htorn. exists 1%nat, 88. split; [reflexivity|]. split; [lia | reflexivity].
Defined.

(** ** Data URIs *)

Lemma after_comma_none s : comma_free s = true → after_comma s = None.
Proof.
  induction s as [|c s IH]; [reflexivity|]. simpl.
  destruct (Ascii.eqb c ","); simpl; [discriminate | exact IH].
Qed.

Lemma after_comma_header h rest :
  comma_free h = true →
  after_comma (String.append h (String ","%char rest)) = Some rest.
Proof.
  induction h as [|c h IH]; simpl; [reflexivity|].
  destruct (Ascii.eqb c ","); simpl; [discriminate | exact IH].
Qed.

Lemma upto_comma_whole p : comma_free p = true → upto_comma p = p.
Proof.
  induction p as [|c p IH]; [reflexivity|]. simpl.
  destruct (Ascii.eqb c ","); simpl; [discriminate|].
  intros Hp. by rewrite IH.
Qed.

Lemma upto_comma_stops p rest :
  comma_free p = true →
  upto_comma (String.append p (String ","%char rest)) = p.
Proof.
  induction p as [|c p IH]; simpl; [reflexivity|].
  destruct (Ascii.eqb c ","); simpl; [discriminate|].
  intros Hp. by rewrite IH.
Qed.

Lemma upto_comma_comma_free s : comma_free (upto_comma s) = true.
Proof.
  induction s as [|c s IH]; [reflexivity|]. simpl.
  destruct (Ascii.eqb c ",") eqn:Hc; simpl; [reflexivity|]. by rewrite Hc.
Qed.

(** X20. The data-URI header is stripped, and a second comma cuts. For a
    header and a payload without commas, "header,payload" is decoded as the
    payload, and so is "header,payload,anything": what follows a second
    comma is dropped without an error. An image without any comma is taken
    whole. The text handed to the decoder never holds a comma, and the
    services return the same for an image with and without its header. *)
Theorem data_uri_header_is_stripped `{Imaging} header payload rest :
  comma_free header = true → comma_free payload = true →
  second_field_or_all (String.append header (String ","%char payload)) = payload
  ∧ second_field_or_all
      (String.append header
         (String ","%char (String.append payload (String ","%char rest))))
    = payload
  ∧ second_field_or_all payload = payload
  ∧ (∀ s, comma_free (second_field_or_all s) = true)
  ∧ (∀ thr t0 t1,
       AIService.detect_shapes
         (String.append header (String ","%char payload)) thr t0 t1
       = AIService.detect_shapes payload thr t0 t1)
  ∧ (∀ language t0 t1,
       perform_ocr (String.append header (String ","%char payload)) language t0 t1
       = perform_ocr payload language t0 t1).
Proof.
  intros Hh Hp.
  assert (H1 : second_field_or_all
                 (String.append header (String ","%char payload)) = payload).
  { unfold second_field_or_all. rewrite after_comma_header by exact Hh.
    by apply upto_comma_whole. }
  assert (H3 : second_field_or_all payload = payload).
  { unfold second_field_or_all. by rewrite after_comma_none. }
  split; [exact H1|]. split; [|split; [exact H3|split; [|split]]].
  - unfold second_field_or_all. rewrite after_comma_header by exact Hh.
    by apply upto_comma_stops.
  - intros s. unfold second_field_or_all.
    destruct (after_comma s) as [r|] eqn:Hs.
    + apply upto_comma_comma_free.
    + clear -Hs. induction s as [|c s IH]; [reflexivity|]. simpl in *.
      destruct (Ascii.eqb c ","); [discriminate|]. simpl. by apply IH.
  - intros thr t0 t1. unfold AIService.detect_shapes. by rewrite H1, H3.
  - intros language t0 t1. unfold perform_ocr. by rewrite H1, H3.
Qed.

Lemma data_uri_header_is_stripped_witness :
  second_field_or_all "data:image/png;base64,mixed" = "mixed"
  ∧ second_field_or_all "data:image/png;base64,mixed,more" = "mixed"
  ∧ @AIService.detect_shapes sample_imaging "data:image/png;base64,mixed"
      0.7 100 101.5
    = @AIService.detect_shapes sample_imaging "mixed" 0.7 100 101.5.
Proof.
  destruct (@data_uri_header_is_stripped sample_imaging
              "data:image/png;base64" "mixed" "more" eq_refl eq_refl)
    as (H1 & H2 & _ & _ & Hd & _).
  split; [exact H1|]. split; [exact H2 | apply Hd].
Defined.

(** * The realtime events *)

(** X21. What the event handlers emit. Connect and disconnect emit one
    event to every connection. A room-scoped event (join, leave, draw,
    clear) whose "room" is missing or falsy (null, false, 0, the empty
    string, an empty list or object) does nothing at all; with a truthy
    room it emits exactly one event, to that room. Every emit of every
    handler skips the sender, and [draw_data] relays what it received
    unchanged. *)
Theorem event_handlers_emit sid ev :
  (∀ event data room skip_sid,
     (event, data, room, skip_sid) ∈ emits (handle sid ev) → skip_sid = sid)
  ∧ (carried ev = None →
       ∃ event data, emits (handle sid ev) = [(event, data, None, sid)])
  ∧ (∀ data, carried ev = Some data →
       Main.truthy (Main.get data "room") = false → handle sid ev = [])
  ∧ (∀ data, carried ev = Some data →
       Main.truthy (Main.get data "room") = true →
       ∃ event payload,
         emits (handle sid ev)
         = [(event, payload, Some (Main.get data "room"), sid)]
         ∧ (ev = DrawData data → event = "drawing_update" ∧ payload = data)).
Proof.
  split; [|split; [|split]].
  - intros event data room skip_sid.
    destruct ev as [| |d|d|d|d]; unfold handle, Main.connect, Main.disconnect,
      Main.join_room, Main.leave_room, Main.draw_data, Main.clear_canvas;
      try destruct (Main.truthy (Main.get d "room")); simpl;
      rewrite ?elem_of_cons, ?elem_of_nil; intros Hin;
      repeat destruct Hin as [Hin|Hin]; try done; by injection Hin.
  - destruct ev; try discriminate; intros _; simpl; eauto.
  - intros data Hev Hfalsy.
    destruct ev as [| |d|d|d|d]; try discriminate; injection Hev as ->;
      unfold handle, Main.join_room, Main.leave_room, Main.draw_data,
        Main.clear_canvas; by rewrite Hfalsy.
  - intros data Hev Htruthy.
    destruct ev as [| |d|d|d|d]; try discriminate; injection Hev as ->;
      unfold handle, Main.join_room, Main.leave_room, Main.draw_data,
        Main.clear_canvas; rewrite Htruthy; simpl;
      eexists _, _; (split; [reflexivity|]); try discriminate.
    intros _. by split.
Qed.
